(** * Hello Client (BCM20736): connection multiplexing, relay, write dispatch
      and button classification

    A shallow embedding of [hello_client.c] / [hello_client.h].  The global
    [hello_client] structure, the function-static [button_pushed_time] and the
    parts of the ROM the handlers read or drive (connection multiplexer,
    current connection context, NVRAM, the calls made into the stack) are
    gathered in one explicit [state] that every handler transforms. *)

From Stdlib Require Import ZArith Lia List.
From Stdlib Require Import Init.Byte Strings.Byte.
From stdpp Require Import base numbers option list gmap.

Local Open Scope Z_scope.

(** ** Machine integers and bytes *)

Definition UINT8 (z : Z) : Z := z mod 2 ^ 8.
Definition UINT16 (z : Z) : Z := z mod 2 ^ 16.
Definition UINT32 (z : Z) : Z := z mod 2 ^ 32.

Definition byte_to_Z (b : byte) : Z := Z.of_N (Byte.to_N b).

Definition Z_to_byte (z : Z) : byte :=
  match Byte.of_N (Z.to_N (UINT8 z)) with
  | Some b => b
  | None => x00
  end.

#[global] Instance byte_eq_decision : EqDecision byte := Byte.byte_eq_dec.

(** ** Constants of [hello_client.h] and [hello_client.c] *)

Definition HANDLE_HELLO_CLIENT_SERVICE_UUID : Z := 0x28.
Definition HANDLE_HELLO_CLIENT_DATA_VALUE : Z := 0x2a.
Definition HANDLE_HELLO_CLIENT_CLIENT_CONFIGURATION_DESCRIPTOR : Z := 0x2b.

Definition NVRAM_ID_HOST_LIST : Z := 0x10.

Definition CONNECT_ANY : Z := 0x01.
Definition CONNECT_HELLO_SENSOR : Z := 0x02.
Definition SMP_PAIRING : Z := 0x04.
Definition SMP_ERASE_KEY : Z := 0x08.

Definition HELLO_CLIENT_MAX_PERIPHERALS : Z := 4.

Definition CENTRAL_ROLE : Z := 0.
Definition PERIPHERAL_ROLE : Z := 1.

(** Modelled from the spec: the SDK masks [CCC_NOTIFICATION] and
    [CCC_INDICATION] tested by the relay are declared in a header that is not
    part of the sources; the persisted configuration value is described as
    "bit0=notify, bit1=indicate". *)
Definition CCC_NOTIFICATION : Z := 0x01.
Definition CCC_INDICATION : Z := 0x02.

(** The remaining SDK and [hello_sensor.h] constants the handlers mention are
    not fixed by the sources at hand; they stay abstract. *)
Class Sdk := {
  LESMP_ROLE_INITIATOR : Z;
  LESMP_ROLE_RESPONDERS : Z;
  LESMP_PAIRING_RESULT_BONDED : Z;
  HANDLE_HELLO_SENSOR_CLIENT_CONFIGURATION_DESCRIPTOR : Z;
  (* bleprofile_p_cfg->encr_required *)
  encr_required : Z;
  BLEPROFILE_GENERIC_APP_TIMER : Z;
  BLEAPP_APP_TIMER_SCAN : Z;
  BLEAPP_APP_TIMER_CONN : Z;
  HCIULP_MAX_DATA_LENGTH : Z;
  ADV_SERVICE_UUID128_COMP : Z;
  (* const UINT8 hello_service[16] = {UUID_HELLO_SERVICE} *)
  hello_service : list byte
}.

(** ** Data *)

Inductive scan_mode := NO_SCAN | LOW_SCAN | HIGH_SCAN.
Inductive disc_mode := NO_DISCOVERABLE | HIGH_UNDIRECTED_DISCOVERABLE.
Inductive conn_mode := NO_CONN | HIGH_CONN | LOW_CONN.

(** The fields of the stack's per-connection records that the application
    touches. *)
Record EMCONINFO_DEVINFO := {
  role : Z;
  peerAddr : list byte
}.

Record LESMP_INFO := {
  smpRole : Z
}.

(** [memset (&x, 0, sizeof x)] *)
Definition devinfo_zero : EMCONINFO_DEVINFO :=
  {| role := 0; peerAddr := replicate 6 x00 |}.
Definition smpinfo_zero : LESMP_INFO := {| smpRole := 0 |}.

Record HOSTINFO := {
  bdaddr : list byte;
  characteristic_client_configuration : Z
}.

Record HCIULP_ADV_PACKET_REPORT_WDATA := {
  dataLen : Z;
  data : list byte;
  wd_addr : list byte;
  addressType : Z;
  rssi : Z
}.

(** Calls made into the ROM.  Each is logged together with the connection
    context it is made in. *)
Inductive rom_call :=
| blecm_disconnect_TERMINATED_BY_LOCAL_HOST
| bleprofile_sendWriteReq (attr : Z) (value : list byte)
| lesmp_setPtr (index : Z)
| lesmp_startPairing
| lel2cap_sendConnParamUpdateReq (minInterval maxInterval latency timeout : Z)
| blecm_setAdvDuringConnEnable (enable : bool)
| bleprofile_Discoverable (m : disc_mode)
| lesmpkeys_removeAllBondInfo
| blecli_ClientHandleReset
| blecen_connDown
| blecen_Scan (m : scan_mode)
| blecen_Conn (m : conn_mode) (addr : list byte) (addr_type : Z)
| blecen_appTimerCb (arg : Z)
| blecen_smpBondResult (result : Z)
| blecen_encryptionChanged
| blecen_leAdvReportCb
| wdog_restart
| bleprofile_sendNotification (attr : Z) (value : list byte)
| bleprofile_sendIndication (attr : Z) (value : list byte)
| bleprofile_sendHandleValueConf.

(** [tAPP_STATE hello_client] (the three unused sensor handles left out),
    followed by what lives outside it. *)
Record state := {
  app_config : Z;                       (* UINT8 *)
  app_timer_count : Z;                  (* UINT32 *)
  app_fine_timer_count : Z;             (* UINT32 *)
  handle_to_central : Z;                (* UINT8 *)
  num_peripherals : Z;                  (* UINT8 *)
  dev_info : list EMCONINFO_DEVINFO;    (* [HELLO_CLIENT_MAX_PERIPHERALS] *)
  smp_info : list LESMP_INFO;           (* [HELLO_CLIENT_MAX_PERIPHERALS] *)
  hostinfo : HOSTINFO;
  (* static UINT32 button_pushed_time of hello_client_interrupt_handler *)
  button_pushed_time : Z;
  (* the ROM's connection multiplexer: slot -> connection handle *)
  con_mux : list (option Z);
  (* the connection the stack currently points at: the 16-bit handle that
     emconinfo_getConnHandle() returns *)
  con_handle : Z;
  (* the key-value store behind bleprofile_WriteNVRAM *)
  nvram : gmap Z (list byte);
  (* calls issued so far, oldest first *)
  out : list (Z * rom_call)
}.

Definition set_app_timer_count (v : Z) (s : state) : state :=
  {| app_config := app_config s; app_timer_count := v;
     app_fine_timer_count := app_fine_timer_count s;
     handle_to_central := handle_to_central s;
     num_peripherals := num_peripherals s; dev_info := dev_info s;
     smp_info := smp_info s; hostinfo := hostinfo s;
     button_pushed_time := button_pushed_time s; con_mux := con_mux s;
     con_handle := con_handle s; nvram := nvram s; out := out s |}.

Definition set_app_fine_timer_count (v : Z) (s : state) : state :=
  {| app_config := app_config s; app_timer_count := app_timer_count s;
     app_fine_timer_count := v;
     handle_to_central := handle_to_central s;
     num_peripherals := num_peripherals s; dev_info := dev_info s;
     smp_info := smp_info s; hostinfo := hostinfo s;
     button_pushed_time := button_pushed_time s; con_mux := con_mux s;
     con_handle := con_handle s; nvram := nvram s; out := out s |}.

Definition set_handle_to_central (v : Z) (s : state) : state :=
  {| app_config := app_config s; app_timer_count := app_timer_count s;
     app_fine_timer_count := app_fine_timer_count s;
     handle_to_central := v;
     num_peripherals := num_peripherals s; dev_info := dev_info s;
     smp_info := smp_info s; hostinfo := hostinfo s;
     button_pushed_time := button_pushed_time s; con_mux := con_mux s;
     con_handle := con_handle s; nvram := nvram s; out := out s |}.

Definition set_num_peripherals (v : Z) (s : state) : state :=
  {| app_config := app_config s; app_timer_count := app_timer_count s;
     app_fine_timer_count := app_fine_timer_count s;
     handle_to_central := handle_to_central s;
     num_peripherals := v; dev_info := dev_info s;
     smp_info := smp_info s; hostinfo := hostinfo s;
     button_pushed_time := button_pushed_time s; con_mux := con_mux s;
     con_handle := con_handle s; nvram := nvram s; out := out s |}.

Definition set_dev_info (v : list EMCONINFO_DEVINFO) (s : state) : state :=
  {| app_config := app_config s; app_timer_count := app_timer_count s;
     app_fine_timer_count := app_fine_timer_count s;
     handle_to_central := handle_to_central s;
     num_peripherals := num_peripherals s; dev_info := v;
     smp_info := smp_info s; hostinfo := hostinfo s;
     button_pushed_time := button_pushed_time s; con_mux := con_mux s;
     con_handle := con_handle s; nvram := nvram s; out := out s |}.

Definition set_smp_info (v : list LESMP_INFO) (s : state) : state :=
  {| app_config := app_config s; app_timer_count := app_timer_count s;
     app_fine_timer_count := app_fine_timer_count s;
     handle_to_central := handle_to_central s;
     num_peripherals := num_peripherals s; dev_info := dev_info s;
     smp_info := v; hostinfo := hostinfo s;
     button_pushed_time := button_pushed_time s; con_mux := con_mux s;
     con_handle := con_handle s; nvram := nvram s; out := out s |}.

Definition set_hostinfo (v : HOSTINFO) (s : state) : state :=
  {| app_config := app_config s; app_timer_count := app_timer_count s;
     app_fine_timer_count := app_fine_timer_count s;
     handle_to_central := handle_to_central s;
     num_peripherals := num_peripherals s; dev_info := dev_info s;
     smp_info := smp_info s; hostinfo := v;
     button_pushed_time := button_pushed_time s; con_mux := con_mux s;
     con_handle := con_handle s; nvram := nvram s; out := out s |}.

Definition set_button_pushed_time (v : Z) (s : state) : state :=
  {| app_config := app_config s; app_timer_count := app_timer_count s;
     app_fine_timer_count := app_fine_timer_count s;
     handle_to_central := handle_to_central s;
     num_peripherals := num_peripherals s; dev_info := dev_info s;
     smp_info := smp_info s; hostinfo := hostinfo s;
     button_pushed_time := v; con_mux := con_mux s;
     con_handle := con_handle s; nvram := nvram s; out := out s |}.

Definition set_con_mux (v : list (option Z)) (s : state) : state :=
  {| app_config := app_config s; app_timer_count := app_timer_count s;
     app_fine_timer_count := app_fine_timer_count s;
     handle_to_central := handle_to_central s;
     num_peripherals := num_peripherals s; dev_info := dev_info s;
     smp_info := smp_info s; hostinfo := hostinfo s;
     button_pushed_time := button_pushed_time s; con_mux := v;
     con_handle := con_handle s; nvram := nvram s; out := out s |}.

Definition set_con_handle (v : Z) (s : state) : state :=
  {| app_config := app_config s; app_timer_count := app_timer_count s;
     app_fine_timer_count := app_fine_timer_count s;
     handle_to_central := handle_to_central s;
     num_peripherals := num_peripherals s; dev_info := dev_info s;
     smp_info := smp_info s; hostinfo := hostinfo s;
     button_pushed_time := button_pushed_time s; con_mux := con_mux s;
     con_handle := v; nvram := nvram s; out := out s |}.

Definition set_nvram (v : gmap Z (list byte)) (s : state) : state :=
  {| app_config := app_config s; app_timer_count := app_timer_count s;
     app_fine_timer_count := app_fine_timer_count s;
     handle_to_central := handle_to_central s;
     num_peripherals := num_peripherals s; dev_info := dev_info s;
     smp_info := smp_info s; hostinfo := hostinfo s;
     button_pushed_time := button_pushed_time s; con_mux := con_mux s;
     con_handle := con_handle s; nvram := v; out := out s |}.

(** A call into the ROM, made in the current connection context. *)
Definition call (c : rom_call) (s : state) : state :=
  {| app_config := app_config s; app_timer_count := app_timer_count s;
     app_fine_timer_count := app_fine_timer_count s;
     handle_to_central := handle_to_central s;
     num_peripherals := num_peripherals s; dev_info := dev_info s;
     smp_info := smp_info s; hostinfo := hostinfo s;
     button_pushed_time := button_pushed_time s; con_mux := con_mux s;
     con_handle := con_handle s; nvram := nvram s;
     out := out s ++ [(con_handle s, c)] |}.

(** ** The connection multiplexer *)

(** Modelled from the spec: the ROM's connection multiplexer
    ([blecm_FindConMux], [blecm_DelConMux], [blecm_FindFreeConMux],
    [blecm_AddConMux]) is called by the handlers but its body is not part of
    the sources.  The spec describes it as a "fixed-capacity registry mapping
    a connection handle to a slot": [find] is a "lookup by linear scan",
    allocation does "search for a free index", freeing is "index
    reclamation".  Indices are C [int]s, [-1] meaning "none". *)
Definition blecm_FindConMux (h : Z) (t : list (option Z)) : Z :=
  match list_find (λ x, x = Some h) t with
  | Some (i, _) => Z.of_nat i
  | None => -1
  end.

Definition blecm_FindFreeConMux (t : list (option Z)) : Z :=
  match list_find (λ x, x = None) t with
  | Some (i, _) => Z.of_nat i
  | None => -1
  end.

Definition blecm_DelConMux (i : Z) (t : list (option Z)) : list (option Z) :=
  <[Z.to_nat i := None]> t.

Definition blecm_AddConMux (i h : Z) (t : list (option Z)) : list (option Z) :=
  <[Z.to_nat i := Some h]> t.

(** [blecm_SetPtrConMux (handle)]: "Because we will be sending on the
    different connection, change Set Pointer to the central context"
    (comment in [hello_client_process_data_from_peripheral]): the calls that
    follow are made on the connection [h]. *)
Definition blecm_SetPtrConMux (h : Z) (s : state) : state := set_con_handle h s.

(** Modelled from the spec: [bleprofile_WriteNVRAM] is the spec's
    [persist(key, bytes)] on "a simple key-value byte blob store", and
    [bleprofile_ReadNVRAM] its [load(key) -> Option<bytes>]; neither body is
    part of the sources. *)
Definition bleprofile_WriteNVRAM (id : Z) (blob : list byte) (s : state) : state :=
  set_nvram (<[id := blob]> (nvram s)) s.

Definition bleprofile_ReadNVRAM (id : Z) (s : state) : option (list byte) :=
  nvram s !! id.

(** [dev_info[i]]; the index always comes from the multiplexer, which
    [hello_client_create] sizes like the array. *)
Definition dev_info_at (s : state) (i : nat) : EMCONINFO_DEVINFO :=
  default devinfo_zero (dev_info s !! i).

(** The bytes of a packed [HOSTINFO] (little-endian target). *)
Definition UINT16_bytes (v : Z) : list byte :=
  [Z_to_byte v; Z_to_byte (Z.shiftr v 8)].

Definition HOSTINFO_bytes (h : HOSTINFO) : list byte :=
  bdaddr h ++ UINT16_bytes (characteristic_client_configuration h).

(** ** Handlers *)

Section Handlers.
Context `{Sdk}.

(** [hello_client_create], as far as the state goes: the structure is
    zeroed, the configuration flags set, the multiplexer sized, scanning
    switched off and advertising on.  [nv] is what the NVRAM holds at boot. *)
Definition hello_client_create (nv : gmap Z (list byte)) : state :=
  {| app_config := Z.lor CONNECT_HELLO_SENSOR SMP_PAIRING;
     app_timer_count := 0;
     app_fine_timer_count := 0;
     handle_to_central := 0;
     num_peripherals := 0;
     dev_info := replicate (Z.to_nat HELLO_CLIENT_MAX_PERIPHERALS) devinfo_zero;
     smp_info := replicate (Z.to_nat HELLO_CLIENT_MAX_PERIPHERALS) smpinfo_zero;
     hostinfo := {| bdaddr := replicate 6 x00;
                    characteristic_client_configuration := 0 |};
     button_pushed_time := 0;
     con_mux := replicate (Z.to_nat HELLO_CLIENT_MAX_PERIPHERALS) None;
     con_handle := 0;
     nvram := nv;
     out := [(0, blecen_Scan NO_SCAN);
             (0, bleprofile_Discoverable HIGH_UNDIRECTED_DISCOVERABLE)] |}.

(** [dev] and [smp] are what [emconinfo_getPtr()] and [lesmp_getPtr()] point
    at when the stack reports the link. *)
Definition hello_client_connection_up
    (dev : EMCONINFO_DEVINFO) (smp : LESMP_INFO) (s : state) : state :=
  let con_handle := con_handle s in
  let cm_index := blecm_FindConMux con_handle (con_mux s) in
  (* delete index first *)
  let s := if 0 <=? cm_index
           then set_con_mux (blecm_DelConMux cm_index (con_mux s)) s
           else s in
  (* find free index *)
  let cm_index := blecm_FindFreeConMux (con_mux s) in
  if cm_index <? 0 then
    call blecm_disconnect_TERMINATED_BY_LOCAL_HOST s
  else
    let i := Z.to_nat cm_index in
    let s := set_dev_info (<[i := dev]> (dev_info s)) s in
    let s := set_smp_info (<[i := smp]> (smp_info s)) s in
    let s := set_con_mux (blecm_AddConMux cm_index con_handle (con_mux s)) s in
    let s :=
      if role (dev_info_at s i) =? CENTRAL_ROLE then
        let s := set_smp_info
                   (<[i := {| smpRole := LESMP_ROLE_INITIATOR |}]> (smp_info s)) s in
        let s :=
          if encr_required =? 0 then
            call (bleprofile_sendWriteReq
                    HANDLE_HELLO_SENSOR_CLIENT_CONFIGURATION_DESCRIPTOR
                    (UINT16_bytes 1)) s
          else
            call lesmp_startPairing (call (lesmp_setPtr cm_index) s) in
        (* count number of peripheral connections *)
        set_num_peripherals (UINT8 (num_peripherals s + 1)) s
      else
        let s := set_smp_info
                   (<[i := {| smpRole := LESMP_ROLE_RESPONDERS |}]> (smp_info s)) s in
        let s := set_handle_to_central (UINT8 con_handle) s in
        call (lel2cap_sendConnParamUpdateReq 100 116 0 500) s in
    if num_peripherals s <? HELLO_CLIENT_MAX_PERIPHERALS then
      if handle_to_central s =? 0 then
        call (bleprofile_Discoverable HIGH_UNDIRECTED_DISCOVERABLE)
          (call (blecm_setAdvDuringConnEnable true) s)
      else s
    else s.

Definition hello_client_connection_down (s : state) : state :=
  let con_handle := con_handle s in
  let cm_index := blecm_FindConMux con_handle (con_mux s) in
  if cm_index <? 0 then s
  else
    let i := Z.to_nat cm_index in
    let s := if negb (Z.land (app_config s) SMP_ERASE_KEY =? 0)
             then call lesmpkeys_removeAllBondInfo s
             else s in
    let s :=
      if role (dev_info_at s i) =? PERIPHERAL_ROLE then
        call (blecm_setAdvDuringConnEnable true) (set_handle_to_central 0 s)
      else
        call blecen_connDown (call blecli_ClientHandleReset s) in
    (* delete a connection structure *)
    let s := set_dev_info (<[i := devinfo_zero]> (dev_info s)) s in
    let s := set_smp_info (<[i := smpinfo_zero]> (smp_info s)) s in
    (* count number of peripheral connections *)
    let s := set_num_peripherals (UINT8 (num_peripherals s - 1)) s in
    (* delete index *)
    let s := set_con_mux (blecm_DelConMux cm_index (con_mux s)) s in
    if num_peripherals s <? HELLO_CLIENT_MAX_PERIPHERALS
    then call (blecen_Scan LOW_SCAN) s
    else s.

Definition hello_client_app_timer (arg : Z) (s : state) : state :=
  let s := if arg =? BLEPROFILE_GENERIC_APP_TIMER
           then set_app_timer_count (UINT32 (app_timer_count s + 1)) s
           else s in
  call (blecen_appTimerCb arg) s.

Definition hello_client_app_fine_timer (arg : Z) (s : state) : state :=
  set_app_fine_timer_count (UINT32 (app_fine_timer_count s + 1)) s.

Definition hello_client_smp_pair_result (result : Z) (s : state) : state :=
  let s := call (blecen_smpBondResult result) s in
  if result =? LESMP_PAIRING_RESULT_BONDED then
    call (bleprofile_sendWriteReq
            HANDLE_HELLO_SENSOR_CLIENT_CONFIGURATION_DESCRIPTOR
            (UINT16_bytes 1)) s
  else s.

Definition hello_client_encryption_changed (s : state) : state :=
  call blecen_encryptionChanged s.

(** [conn] is the answer of [blecen_GetConn()]. *)
Definition hello_client_timer_callback (arg : Z) (conn : conn_mode) (s : state) : state :=
  if arg =? BLEAPP_APP_TIMER_SCAN then call (blecen_Scan LOW_SCAN) s
  else if arg =? BLEAPP_APP_TIMER_CONN then
    match conn with
    | HIGH_CONN | LOW_CONN =>
        call (bleprofile_Discoverable HIGH_UNDIRECTED_DISCOVERABLE)
          (call (blecen_Scan LOW_SCAN) (call (blecen_Conn NO_CONN [] 0) s))
    | NO_CONN => s
    end
  else s.

(** *** Advertisement reports *)

(** One byte of the report buffer; [None] is a read outside of it. *)
Definition byte_at (buf : list byte) (p : Z) : option Z :=
  if p <? 0 then None else byte_to_Z <$> buf !! Z.to_nat p.

(** [memcmp (buf + p, ref, 16) == 0] *)
Definition memcmp16_eq (buf : list byte) (p : Z) (ref : list byte) : option bool :=
  let window := take 16 (drop (Z.to_nat p) buf) in
  if bool_decide (length window = 16%nat)
  then Some (bool_decide (window = take 16 ref))
  else None.

(** The [while (1)] loop over the [BLE_ADV_FIELD]s: [Some true] when it
    leaves through the match, [Some false] when through the end test. *)
Fixpoint adv_scan (fuel : nat) (buf : list byte) (dataLen ptr : Z) : option bool :=
  match fuel with
  | O => None
  | S fuel =>
      len ← byte_at buf ptr;
      hit ← (if len =? 16 + 1 then
               val ← byte_at buf (ptr + 1);
               if val =? ADV_SERVICE_UUID128_COMP
               then memcmp16_eq buf (ptr + 2) hello_service
               else Some false
             else Some false);
      if hit : bool then Some true
      else
        let ptr := ptr + (len + 1) in
        if dataLen <=? ptr then Some false
        else adv_scan fuel buf dataLen ptr
  end.

(** [HELLO_CLIENT_MIN_RSSI] is not defined: the RSSI filter is compiled out. *)
Definition hello_client_advertisement_report
    (evt : HCIULP_ADV_PACKET_REPORT_WDATA) (s : state) : option state :=
  let dataLen := UINT8 (dataLen evt) in
  let s := call wdog_restart s in
  if HCIULP_MAX_DATA_LENGTH <? dataLen then Some s
  else
    let s := call blecen_leAdvReportCb s in
    if negb (Z.land (app_config s) CONNECT_HELLO_SENSOR =? 0) then
      found ← adv_scan (S (Z.to_nat dataLen)) (data evt) dataLen 0;
      Some (if found : bool then
              call (blecen_Scan NO_SCAN)
                (call (blecen_Conn HIGH_CONN (wd_addr evt) (addressType evt))
                   (call (bleprofile_Discoverable NO_DISCOVERABLE) s))
            else s)
    else Some s.

(** *** Relay *)

Definition hello_client_process_data_from_peripheral
    (len : Z) (data : list byte) (s : state) : state :=
  let ccc := characteristic_client_configuration (hostinfo s) in
  if negb (Z.land ccc CCC_NOTIFICATION =? 0) then
    let s := blecm_SetPtrConMux (handle_to_central s) s in
    call (bleprofile_sendNotification HANDLE_HELLO_CLIENT_DATA_VALUE
            (take (Z.to_nat (if len <? 20 then len else 20)) data)) s
  else if negb (Z.land ccc CCC_INDICATION =? 0) then
    let s := blecm_SetPtrConMux (handle_to_central s) s in
    call (bleprofile_sendIndication HANDLE_HELLO_CLIENT_DATA_VALUE
            (take (Z.to_nat (if len <? 20 then len else 20)) data)) s
  else s.

Definition hello_client_notification_handler
    (len attr_len : Z) (data : list byte) (s : state) : state :=
  hello_client_process_data_from_peripheral len data s.

Definition hello_client_indication_handler
    (len attr_len : Z) (data : list byte) (s : state) : state :=
  let s := hello_client_process_data_from_peripheral len data s in
  call bleprofile_sendHandleValueConf s.

(** *** Writes from the peer *)

(** [handle] (16 bits), [attrPtr] and [len = length attrPtr] are what the
    [legattdb_get*] accessors give for the entry written. *)
Definition hello_client_write_handler
    (handle : Z) (attrPtr : list byte) (s : state) : Z * state :=
  let len := Z.of_nat (length attrPtr) in
  if (len =? 2) && (handle =? HANDLE_HELLO_CLIENT_CLIENT_CONFIGURATION_DESCRIPTOR) then
    let v := UINT16 (byte_to_Z (nth 0 attrPtr x00)
                     + Z.shiftl (byte_to_Z (nth 1 attrPtr x00)) 8) in
    let s := set_hostinfo {| bdaddr := bdaddr (hostinfo s);
                             characteristic_client_configuration := v |} s in
    (* Save update to NVRAM *)
    let s := bleprofile_WriteNVRAM NVRAM_ID_HOST_LIST
               (HOSTINFO_bytes (hostinfo s)) s in
    (0, s)
  else if handle =? HANDLE_HELLO_CLIENT_DATA_VALUE then
    (0, s)
  else
    (0x80, s).

(** *** Button *)

(** ["From Client\n"] *)
Definition From_Client : list byte :=
  [x46; x72; x6f; x6d; x20; x43; x6c; x69; x65; x6e; x74; x0a].

(** The handler's return value is always 0 and is left out. *)
Definition hello_client_interrupt_handler (value : Z) (s : state) : state :=
  let button_pushed := Z.land value 0x01 in
  if negb (button_pushed =? 0) then
    set_button_pushed_time (app_timer_count s) s
  else if negb (button_pushed_time s =? 0) then
    if 5 <? UINT32 (app_timer_count s - button_pushed_time s) then
      call (blecen_Scan HIGH_SCAN)
        (call (bleprofile_Discoverable NO_DISCOVERABLE) s)
    else if negb (handle_to_central s =? 0) then
      let s := blecm_SetPtrConMux (handle_to_central s) s in
      call (bleprofile_sendNotification HANDLE_HELLO_CLIENT_DATA_VALUE
              (take 12 From_Client)) s
    else s
  else s.

(** ** Events *)

(** What the stack delivers.  For an event that belongs to a link, the stack
    first makes that link the current connection: the link handlers learn
    which link they are called for from [emconinfo_getConnHandle()], and
    [hello_client_smp_pair_result] writes to the sensor just paired without
    selecting a connection. *)
Inductive event :=
| connection_up (h : Z) (dev : EMCONINFO_DEVINFO) (smp : LESMP_INFO)
| connection_down (h : Z)
| app_timer (arg : Z)
| app_fine_timer (arg : Z)
| smp_pair_result (h : Z) (result : Z)
| encryption_changed (h : Z)
| timer_callback (arg : Z) (conn : conn_mode)
| advertisement_report (evt : HCIULP_ADV_PACKET_REPORT_WDATA)
| notification_received (h : Z) (attr : Z) (payload : list byte)
| indication_received (h : Z) (attr : Z) (payload : list byte)
| write_received (h : Z) (attr : Z) (payload : list byte)
| button_edge (value : Z).

Definition step (e : event) (s : state) : option state :=
  match e with
  | connection_up h dev smp =>
      Some (hello_client_connection_up dev smp (set_con_handle h s))
  | connection_down h =>
      Some (hello_client_connection_down (set_con_handle h s))
  | app_timer arg => Some (hello_client_app_timer arg s)
  | app_fine_timer arg => Some (hello_client_app_fine_timer arg s)
  | smp_pair_result h result =>
      Some (hello_client_smp_pair_result result (set_con_handle h s))
  | encryption_changed h =>
      Some (hello_client_encryption_changed (set_con_handle h s))
  | timer_callback arg conn => Some (hello_client_timer_callback arg conn s)
  | advertisement_report evt => hello_client_advertisement_report evt s
  | notification_received h attr payload =>
      Some (hello_client_notification_handler
              (Z.of_nat (length payload)) attr payload (set_con_handle h s))
  | indication_received h attr payload =>
      Some (hello_client_indication_handler
              (Z.of_nat (length payload)) attr payload (set_con_handle h s))
  | write_received h attr payload =>
      Some (hello_client_write_handler attr payload (set_con_handle h s)).2
  | button_edge value => Some (hello_client_interrupt_handler value s)
  end.

Fixpoint run (evs : list event) (s : state) : option state :=
  match evs with
  | [] => Some s
  | e :: evs => s' ← step e s; run evs s'
  end.

End Handlers.

(** ** Vocabulary of the properties *)

(** The preference bits, as the relay tests them. *)
Definition notify_enabled (s : state) : bool :=
  negb (Z.land (characteristic_client_configuration (hostinfo s)) CCC_NOTIFICATION =? 0).

Definition indicate_enabled (s : state) : bool :=
  negb (Z.land (characteristic_client_configuration (hostinfo s)) CCC_INDICATION =? 0).

(** Slots whose link is the one to the remote central: the multiplexer slot
    is taken and the device record stored for it says this device is the
    peripheral of the link (the branch of [hello_client_connection_up] that
    sets [handle_to_central]). *)
Definition central_slots (s : state) : list nat :=
  List.filter
    (λ i, match con_mux s !! i with
          | Some (Some _) => role (dev_info_at s i) =? PERIPHERAL_ROLE
          | _ => false
          end)
    (seq 0 (length (con_mux s))).

(** Every handle sits in at most one slot of the multiplexer. *)
Definition handle_unique (t : list (option Z)) : Prop :=
  ∀ (i j : nat) (h : Z), t !! i = Some (Some h) → t !! j = Some (Some h) → i = j.

(** An advertisement field is its body (type byte, then payload); on the air
    it is preceded by its length. *)
Definition adv_field_bytes (f : list byte) : list byte :=
  Z_to_byte (Z.of_nat (length f)) :: f.

Definition adv_fields_bytes (fs : list (list byte)) : list byte :=
  concat (adv_field_bytes <$> fs).

(** The body of the field the scan looks for: 17 bytes, complete list of
    128-bit service UUIDs, the Hello service. *)
Definition target_field `{Sdk} : list byte :=
  Z_to_byte ADV_SERVICE_UUID128_COMP :: hello_service.

(** The calls by which the scan reacts to a match. *)
Definition connect_calls (evt : HCIULP_ADV_PACKET_REPORT_WDATA) (ctx : Z)
  : list (Z * rom_call) :=
  [(ctx, bleprofile_Discoverable NO_DISCOVERABLE);
   (ctx, blecen_Conn HIGH_CONN (wd_addr evt) (addressType evt));
   (ctx, blecen_Scan NO_SCAN)].

(** The calls of the two button intents. *)
Definition StartDiscovery (ctx : Z) : list (Z * rom_call) :=
  [(ctx, bleprofile_Discoverable NO_DISCOVERABLE); (ctx, blecen_Scan HIGH_SCAN)].


(** An instantiation of the abstract constants, with the values the
    Bluetooth core specification assigns where it assigns one, on which the
    handlers can be run. *)
Definition sample_sdk : Sdk := {|
  LESMP_ROLE_INITIATOR := 0;
  LESMP_ROLE_RESPONDERS := 1;
  LESMP_PAIRING_RESULT_BONDED := 2;
  HANDLE_HELLO_SENSOR_CLIENT_CONFIGURATION_DESCRIPTOR := 0x2b;
  encr_required := 3;
  BLEPROFILE_GENERIC_APP_TIMER := 1;
  BLEAPP_APP_TIMER_SCAN := 2;
  BLEAPP_APP_TIMER_CONN := 3;
  HCIULP_MAX_DATA_LENGTH := 31;
  ADV_SERVICE_UUID128_COMP := 0x07;
  hello_service := [x23; x20; x56; x7c; x05; xcf; x6e; xb4;
                    xc3; x41; x77; x28; x51; x82; x7e; x1b]
|}.

(** Two links as the stack reports them: one on which a remote central has
    connected to this device, one on which this device is the central of a
    sensor. *)
Definition link_to_central : EMCONINFO_DEVINFO :=
  {| role := PERIPHERAL_ROLE; peerAddr := [x01; x02; x03; x04; x05; x06] |}.

Definition link_to_sensor : EMCONINFO_DEVINFO :=
  {| role := CENTRAL_ROLE; peerAddr := [x11; x12; x13; x14; x15; x16] |}.

(** What the two link handlers do to the multiplexer, given the handle of
    the link reported. *)
Definition mux_up (h : Z) (t : list (option Z)) : list (option Z) :=
  let t1 := if 0 <=? blecm_FindConMux h t
            then blecm_DelConMux (blecm_FindConMux h t) t else t in
  if blecm_FindFreeConMux t1 <? 0 then t1
  else blecm_AddConMux (blecm_FindFreeConMux t1) h t1.

Definition mux_down (h : Z) (t : list (option Z)) : list (option Z) :=
  if blecm_FindConMux h t <? 0 then t
  else blecm_DelConMux (blecm_FindConMux h t) t.

(** [n] one-second ticks of the application timer. *)
Definition ticks `{Sdk} (n : nat) (s : state) : state :=
  Nat.iter n (hello_client_app_timer BLEPROFILE_GENERIC_APP_TIMER) s.

(** The device after start-up on an empty NVRAM, and after a central has then
    connected on handle 0x40. *)
Definition booted : state := hello_client_create ∅.

Definition central_connected : state :=
  @hello_client_connection_up sample_sdk link_to_central smpinfo_zero
    (set_con_handle 0x40 booted).

(** Sample advertisement fields and the report that carries a field list. *)
Definition flags_field : list byte := [x01; x06].

Definition other_uuid_field : list byte :=
  [x07; xef; x48; xa2; x32; x17; xc6; xa6; xbc;
   xfa; x44; x54; x7c; x0d; x90; x03; xdc].

Definition report_of (fs : list (list byte)) : HCIULP_ADV_PACKET_REPORT_WDATA :=
  {| dataLen := Z.of_nat (length (adv_fields_bytes fs));
     data := adv_fields_bytes fs;
     wd_addr := [x11; x12; x13; x14; x15; x16];
     addressType := 0;
     rssi := -60 |}.

(** The handles registered in the multiplexer. *)
Definition live_handles (t : list (option Z)) : list Z := omap id t.

Definition is_write_received (e : event) : bool :=
  match e with write_received _ _ _ => true | _ => false end.

(** The device with four sensors connected, on handles 0x40 to 0x43. *)
Definition four_sensors : state :=
  default booted
    (@run sample_sdk
       [connection_up 0x40 link_to_sensor smpinfo_zero;
        connection_up 0x41 link_to_sensor smpinfo_zero;
        connection_up 0x42 link_to_sensor smpinfo_zero;
        connection_up 0x43 link_to_sensor smpinfo_zero] booted).

(** A central is connected and the coarse tick counter is two ticks away from
    wrapping. *)
Definition near_wrap : state := set_app_timer_count (2 ^ 32 - 2) central_connected.

(** A report that declares no data while its buffer starts with the field
    looked for. *)
Definition stale_report `{Sdk} (rest : list byte) : HCIULP_ADV_PACKET_REPORT_WDATA :=
  {| dataLen := 0;
     data := adv_field_bytes target_field ++ rest;
     wd_addr := [x11; x12; x13; x14; x15; x16];
     addressType := 0;
     rssi := -60 |}.

(** The NVRAM of a device on which the central had enabled notifications
    before the last power cycle. *)
Definition nvram_with_notify : gmap Z (list byte) :=
  {[ NVRAM_ID_HOST_LIST := replicate 6 x00 ++ [x01; x00] ]}.

(** ** Proof tools *)

Ltac state_simpl :=
  cbn [app_config app_timer_count app_fine_timer_count handle_to_central
       num_peripherals dev_info smp_info hostinfo button_pushed_time con_mux
       con_handle nvram out
       set_app_timer_count set_app_fine_timer_count set_handle_to_central
       set_num_peripherals set_dev_info set_smp_info set_hostinfo
       set_button_pushed_time set_con_mux set_con_handle set_nvram call
       blecm_SetPtrConMux bleprofile_WriteNVRAM fst snd] in *.

Ltac handler_cases := repeat (state_simpl; case_match); state_simpl.

(** ** Bytes and bits *)

Lemma byte_to_Z_range (b : byte) : 0 ≤ byte_to_Z b < 256.
Proof.
  unfold byte_to_Z. pose proof (Byte.to_N_bounded b). lia.
Qed.

Lemma Z_to_byte_to_Z (b : byte) : Z_to_byte (byte_to_Z b) = b.
Proof.
  unfold Z_to_byte, UINT8.
  rewrite Z.mod_small by (apply byte_to_Z_range).
  unfold byte_to_Z. rewrite N2Z.id, Byte.of_to_N. reflexivity.
Qed.

Lemma byte_to_Z_to_byte (z : Z) : 0 ≤ z < 256 → byte_to_Z (Z_to_byte z) = z.
Proof.
  intros Hz. unfold Z_to_byte, UINT8. rewrite Z.mod_small by lia.
  destruct (Byte.of_N (Z.to_N z)) as [b|] eqn:E.
  - apply Byte.to_of_N in E. unfold byte_to_Z. rewrite E. lia.
  - apply Byte.of_N_None_iff in E. lia.
Qed.

Lemma Z_to_byte_add_high (lo hi : Z) : Z_to_byte (lo + hi * 256) = Z_to_byte lo.
Proof.
  unfold Z_to_byte, UINT8. change (2 ^ 8) with 256.
  rewrite Z.mod_add by lia. reflexivity.
Qed.

(** [attrPtr[0] + (attrPtr[1] << 8)] fits 16 bits, and stored little-endian
    it is the two bytes again. *)
Lemma le16_range (b0 b1 : byte) :
  0 ≤ byte_to_Z b0 + Z.shiftl (byte_to_Z b1) 8 < 2 ^ 16.
Proof.
  rewrite Z.shiftl_mul_pow2 by lia.
  pose proof (byte_to_Z_range b0). pose proof (byte_to_Z_range b1). lia.
Qed.

Lemma UINT16_bytes_le16 (b0 b1 : byte) :
  UINT16_bytes (byte_to_Z b0 + Z.shiftl (byte_to_Z b1) 8) = [b0; b1].
Proof.
  unfold UINT16_bytes.
  rewrite Z.shiftr_div_pow2, Z.shiftl_mul_pow2 by lia. change (2 ^ 8) with 256.
  rewrite Z_to_byte_add_high, Z_to_byte_to_Z.
  rewrite Z.div_add by lia.
  rewrite Z.div_small by (apply byte_to_Z_range).
  rewrite Z.add_0_l, Z_to_byte_to_Z. reflexivity.
Qed.

Lemma land_pow2_testbit (x n : Z) :
  0 ≤ n → negb (Z.land x (2 ^ n) =? 0) = Z.testbit x n.
Proof.
  intros Hn.
  destruct (Z.testbit x n) eqn:Hb.
  - apply negb_true_iff, Z.eqb_neq. intros E.
    assert (Z.testbit (Z.land x (2 ^ n)) n = false) as Hf
      by (rewrite E; apply Z.bits_0).
    rewrite Z.land_spec, Hb, Z.pow2_bits_true in Hf by lia. discriminate.
  - apply negb_false_iff, Z.eqb_eq. apply Z.bits_inj'. intros m Hm.
    rewrite Z.land_spec, Z.bits_0.
    destruct (decide (m = n)) as [->|Hne].
    + rewrite Hb. reflexivity.
    + rewrite Z.pow2_bits_false by lia. apply andb_false_r.
Qed.

Lemma testbit_le16_low (b0 b1 : byte) (n : Z) :
  0 ≤ n < 8 →
  Z.testbit (byte_to_Z b0 + Z.shiftl (byte_to_Z b1) 8) n
  = Z.testbit (byte_to_Z b0) n.
Proof.
  intros Hn. rewrite Z.shiftl_mul_pow2 by lia.
  rewrite !Z.testbit_odd, !Z.shiftr_div_pow2 by lia.
  replace (byte_to_Z b1 * 2 ^ 8) with (byte_to_Z b1 * 2 ^ (8 - n) * 2 ^ n).
  2:{ rewrite <- Z.mul_assoc, <- Z.pow_add_r by lia. do 2 f_equal. lia. }
  rewrite Z.div_add by (apply Z.pow_nonzero; lia).
  replace (2 ^ (8 - n)) with (2 * 2 ^ (8 - n - 1)).
  2:{ rewrite <- Z.pow_succ_r by lia. f_equal. lia. }
  rewrite Z.odd_add.
  replace (byte_to_Z b1 * (2 * 2 ^ (8 - n - 1)))
    with (2 * (byte_to_Z b1 * 2 ^ (8 - n - 1))) by lia.
  rewrite Z.odd_mul, Z.odd_2. simpl. apply xorb_false_r.
Qed.

(** ** Writes from the peer *)

Lemma write_handler_config (b0 b1 : byte) (s : state) :
  hello_client_write_handler
    HANDLE_HELLO_CLIENT_CLIENT_CONFIGURATION_DESCRIPTOR [b0; b1] s
  = (0,
     bleprofile_WriteNVRAM NVRAM_ID_HOST_LIST (bdaddr (hostinfo s) ++ [b0; b1])
       (set_hostinfo
          {| bdaddr := bdaddr (hostinfo s);
             characteristic_client_configuration :=
               byte_to_Z b0 + Z.shiftl (byte_to_Z b1) 8 |} s)).
Proof.
  unfold hello_client_write_handler. cbn [length nth].
  change (Z.of_nat 2 =? 2) with true. rewrite Z.eqb_refl. cbn [andb].
  unfold UINT16. rewrite Z.mod_small by (apply le16_range).
  cbn [hostinfo set_hostinfo]. unfold HOSTINFO_bytes.
  cbn [bdaddr characteristic_client_configuration].
  rewrite UINT16_bytes_le16. reflexivity.
Qed.

Lemma write_handler_config_flags (b0 b1 : byte) (s : state) :
  let s' := (hello_client_write_handler
               HANDLE_HELLO_CLIENT_CLIENT_CONFIGURATION_DESCRIPTOR [b0; b1] s).2 in
  notify_enabled s' = Z.testbit (byte_to_Z b0) 0
  ∧ indicate_enabled s' = Z.testbit (byte_to_Z b0) 1.
Proof.
  intros s'. subst s'. rewrite write_handler_config. cbn [snd]. split.
  - unfold notify_enabled, bleprofile_WriteNVRAM, set_nvram, set_hostinfo.
    cbn [hostinfo characteristic_client_configuration].
    change CCC_NOTIFICATION with (2 ^ 0). rewrite land_pow2_testbit by lia.
    apply testbit_le16_low. lia.
  - unfold indicate_enabled, bleprofile_WriteNVRAM, set_nvram, set_hostinfo.
    cbn [hostinfo characteristic_client_configuration].
    change CCC_INDICATION with (2 ^ 1). rewrite land_pow2_testbit by lia.
    apply testbit_le16_low. lia.
Qed.

(** C4: a write of exactly two bytes [b0; b1] to the client-configuration
    descriptor succeeds (returns 0); the stored value is the little-endian
    reading of the payload (b0 is the low byte); notifications are enabled
    iff bit 0 is set and indications iff bit 1 is set; the HOSTINFO record is
    written to NVRAM, its configuration value being the two input bytes after
    the address, and loading the record afterwards returns exactly the bytes
    written.  In particular the payload [0x03; 0x00] enables both. *)
Theorem client_configuration_write_roundtrip (b0 b1 : byte) (s : state) :
  let r := hello_client_write_handler
             HANDLE_HELLO_CLIENT_CLIENT_CONFIGURATION_DESCRIPTOR [b0; b1] s in
  let r3 := hello_client_write_handler
              HANDLE_HELLO_CLIENT_CLIENT_CONFIGURATION_DESCRIPTOR [x03; x00] s in
  r.1 = 0
  ∧ characteristic_client_configuration (hostinfo r.2)
    = byte_to_Z b0 + 2 ^ 8 * byte_to_Z b1
  ∧ notify_enabled r.2 = Z.testbit (byte_to_Z b0) 0
  ∧ indicate_enabled r.2 = Z.testbit (byte_to_Z b0) 1
  ∧ HOSTINFO_bytes (hostinfo r.2) = bdaddr (hostinfo s) ++ [b0; b1]
  ∧ bleprofile_ReadNVRAM NVRAM_ID_HOST_LIST r.2
    = Some (HOSTINFO_bytes (hostinfo r.2))
  ∧ notify_enabled r3.2 = true
  ∧ indicate_enabled r3.2 = true
  ∧ bleprofile_ReadNVRAM NVRAM_ID_HOST_LIST r3.2
    = Some (bdaddr (hostinfo s) ++ [x03; x00]).
Proof.
  intros r r3.
  destruct (write_handler_config_flags b0 b1 s) as [Hn Hi].
  destruct (write_handler_config_flags x03 x00 s) as [Hn3 Hi3].
  fold r in Hn, Hi. fold r3 in Hn3, Hi3.
  assert (HOSTINFO_bytes (hostinfo r.2) = bdaddr (hostinfo s) ++ [b0; b1]) as Hrec.
  { subst r. rewrite write_handler_config. cbn [snd]. unfold HOSTINFO_bytes.
    state_simpl. cbn [bdaddr characteristic_client_configuration].
    rewrite UINT16_bytes_le16. reflexivity. }
  split; [subst r; rewrite write_handler_config; reflexivity|].
  split.
  { subst r. rewrite write_handler_config. state_simpl.
    cbn [characteristic_client_configuration].
    rewrite Z.shiftl_mul_pow2 by lia. lia. }
  split; [exact Hn|]. split; [exact Hi|]. split; [exact Hrec|].
  split.
  { rewrite Hrec. subst r. rewrite write_handler_config.
    unfold bleprofile_ReadNVRAM. state_simpl. apply lookup_insert_eq. }
  split; [rewrite Hn3; reflexivity|]. split; [rewrite Hi3; reflexivity|].
  subst r3. rewrite write_handler_config.
  unfold bleprofile_ReadNVRAM. state_simpl. apply lookup_insert_eq.
Qed.

(** C5: a write to the client-configuration descriptor whose payload is not
    exactly two bytes long, and a write to any attribute other than that
    descriptor and the data value, is answered with the error code 0x80 and
    leaves the whole state, the stored preference and the NVRAM included,
    as it was. *)
Theorem write_not_permitted (attr : Z) (payload : list byte) (s : state) :
  (attr = HANDLE_HELLO_CLIENT_CLIENT_CONFIGURATION_DESCRIPTOR
   ∧ length payload ≠ 2%nat)
  ∨ (attr ≠ HANDLE_HELLO_CLIENT_CLIENT_CONFIGURATION_DESCRIPTOR
     ∧ attr ≠ HANDLE_HELLO_CLIENT_DATA_VALUE) →
  hello_client_write_handler attr payload s = (0x80, s).
Proof.
  unfold hello_client_write_handler.
  intros [[-> Hlen] | [Hc Hd]].
  - destruct (Z.eqb_spec (Z.of_nat (length payload)) 2) as [E|_]; [lia|].
    reflexivity.
  - destruct (Z.eqb_spec attr HANDLE_HELLO_CLIENT_CLIENT_CONFIGURATION_DESCRIPTOR)
      as [E|_]; [contradiction|].
    rewrite andb_false_r.
    destruct (Z.eqb_spec attr HANDLE_HELLO_CLIENT_DATA_VALUE) as [E|_];
      [contradiction|].
    reflexivity.
Qed.

Lemma write_not_permitted_witness :
  hello_client_write_handler
    HANDLE_HELLO_CLIENT_CLIENT_CONFIGURATION_DESCRIPTOR [x01] booted
  = (0x80, booted).
Proof.
  apply write_not_permitted. left. split; [reflexivity | simpl; lia].
Defined.

(** ** Relay *)





(** C2: the relay does not look at [handle_to_central].  After a central has
    connected, enabled notifications and disconnected, no central link is left
    ([handle_to_central] is 0, no central slot), yet a notification arriving
    from a peripheral is forwarded: the relay selects connection 0 and issues
    [bleprofile_sendNotification]. *)
Theorem relay_without_central_notifies `{Sdk} (nv : gmap Z (list byte)) :
  ∃ s s',
    run [connection_up 0x40 link_to_central smpinfo_zero;
         write_received 0x40
           HANDLE_HELLO_CLIENT_CLIENT_CONFIGURATION_DESCRIPTOR [x01; x00];
         connection_down 0x40]
        (hello_client_create nv) = Some s
    ∧ handle_to_central s = 0
    ∧ central_slots s = []
    ∧ step (notification_received 0x41 0x2a [x48; x69]) s = Some s'
    ∧ out s' = out s ++
        [(0, bleprofile_sendNotification HANDLE_HELLO_CLIENT_DATA_VALUE
               [x48; x69])].
Proof.
  eexists _, _. split; [vm_compute; reflexivity|].
  split; [reflexivity|]. split; [vm_compute; reflexivity|].
  split; vm_compute; reflexivity.
Qed.

(** The indication handler always issues one confirmation, after whatever it
    forwarded; the connection it is issued on is the originating one only
    when nothing was forwarded. *)
Lemma indication_confirmation_context
    (len attr_len : Z) (payload : list byte) (s : state) :
  let s' := hello_client_indication_handler len attr_len payload s in
  ∃ forwarded,
    out s' = out s ++ forwarded ++ [(con_handle s', bleprofile_sendHandleValueConf)]
    ∧ (∀ c, c ∈ forwarded → c.2 ≠ bleprofile_sendHandleValueConf)
    ∧ con_handle s' =
        (if notify_enabled s || indicate_enabled s then handle_to_central s
         else con_handle s).
Proof.
  intros s'. subst s'.
  unfold hello_client_indication_handler, hello_client_process_data_from_peripheral,
    notify_enabled, indicate_enabled.
  destruct (negb (Z.land (characteristic_client_configuration (hostinfo s))
                    CCC_NOTIFICATION =? 0)).
  - eexists [_]. cbn. rewrite <- app_assoc. split; [reflexivity|].
    split; [|reflexivity].
    intros c Hc%list_elem_of_singleton. subst c. discriminate.
  - destruct (negb (Z.land (characteristic_client_configuration (hostinfo s))
                      CCC_INDICATION =? 0)).
    + eexists [_]. cbn. rewrite <- app_assoc. split; [reflexivity|].
      split; [|reflexivity].
      intros c Hc%list_elem_of_singleton. subst c. discriminate.
    + exists []. cbn. split; [reflexivity|]. split; [|reflexivity].
      intros c Hc. inversion Hc.
Qed.

(** C10: with a central on handle 0x40 that has enabled notifications and a
    sensor on handle 0x41, an indication received from the sensor is forwarded
    after the relay has switched the connection to 0x40, and the one
    handle-value confirmation that follows is issued on 0x40 as well, not on
    the link 0x41 the indication came from. *)
Theorem indication_confirmed_on_central_link :
  ∃ s s',
    @run sample_sdk
        [connection_up 0x40 link_to_central smpinfo_zero;
         write_received 0x40
           HANDLE_HELLO_CLIENT_CLIENT_CONFIGURATION_DESCRIPTOR [x01; x00];
         connection_up 0x41 link_to_sensor smpinfo_zero]
        (hello_client_create ∅) = Some s
    ∧ con_mux s = [Some 0x40; Some 0x41; None; None]
    ∧ @step sample_sdk (indication_received 0x41 0x2a [x48; x69]) s = Some s'
    ∧ out s' = out s ++
        [(0x40, bleprofile_sendNotification HANDLE_HELLO_CLIENT_DATA_VALUE
                  [x48; x69]);
         (0x40, bleprofile_sendHandleValueConf)].
Proof.
  eexists _, _. split; [vm_compute; reflexivity|].
  split; [reflexivity|]. split; vm_compute; reflexivity.
Qed.

(** ** Button *)

Lemma interrupt_press (v : Z) (s : state) :
  Z.land v 1 ≠ 0 →
  hello_client_interrupt_handler v s
  = set_button_pushed_time (app_timer_count s) s.
Proof.
  intros Hv. unfold hello_client_interrupt_handler.
  destruct (Z.eqb_spec (Z.land v 1) 0) as [E|_]; [contradiction|]. reflexivity.
Qed.

Lemma interrupt_release (v : Z) (s : state) :
  Z.land v 1 = 0 →
  hello_client_interrupt_handler v s =
    if button_pushed_time s =? 0 then s
    else if 5 <? UINT32 (app_timer_count s - button_pushed_time s) then
      call (blecen_Scan HIGH_SCAN)
        (call (bleprofile_Discoverable NO_DISCOVERABLE) s)
    else if handle_to_central s =? 0 then s
    else call (bleprofile_sendNotification HANDLE_HELLO_CLIENT_DATA_VALUE From_Client)
           (blecm_SetPtrConMux (handle_to_central s) s).
Proof.
  intros Hv. unfold hello_client_interrupt_handler. rewrite Hv.
  change (negb (0 =? 0)) with false. cbv iota.
  destruct (button_pushed_time s =? 0); [reflexivity|]. cbn [negb].
  destruct (5 <? UINT32 (app_timer_count s - button_pushed_time s)); [reflexivity|].
  destruct (handle_to_central s =? 0); reflexivity.
Qed.








(** ** The multiplexer keeps handles apart *)

Lemma FindConMux_found (h : Z) (t : list (option Z)) :
  0 ≤ blecm_FindConMux h t →
  t !! Z.to_nat (blecm_FindConMux h t) = Some (Some h).
Proof.
  unfold blecm_FindConMux.
  destruct (list_find (λ x, x = Some h) t) as [[i x]|] eqn:E; [|lia].
  intros _. apply list_find_Some in E as (Hi & -> & _).
  rewrite Nat2Z.id. exact Hi.
Qed.

Lemma FindConMux_missing (h : Z) (t : list (option Z)) :
  blecm_FindConMux h t < 0 → Some h ∉ t.
Proof.
  unfold blecm_FindConMux.
  destruct (list_find (λ x, x = Some h) t) as [[i x]|] eqn:E; [lia|].
  intros _ Hin. apply list_find_None in E.
  rewrite Forall_forall in E. exact (E _ Hin eq_refl).
Qed.

Lemma FindConMux_live (h : Z) (t : list (option Z)) :
  Some h ∈ t → 0 ≤ blecm_FindConMux h t.
Proof.
  intros Hin. destruct (Z.lt_ge_cases (blecm_FindConMux h t) 0) as [Hlt|Hge]; [|lia].
  destruct (FindConMux_missing h t Hlt Hin).
Qed.

Lemma FindFreeConMux_found (t : list (option Z)) :
  0 ≤ blecm_FindFreeConMux t →
  t !! Z.to_nat (blecm_FindFreeConMux t) = Some None.
Proof.
  unfold blecm_FindFreeConMux.
  destruct (list_find (λ x, x = None) t) as [[i x]|] eqn:E; [|lia].
  intros _. apply list_find_Some in E as (Hi & -> & _).
  rewrite Nat2Z.id. exact Hi.
Qed.

Lemma FindFreeConMux_free (t : list (option Z)) :
  None ∈ t → 0 ≤ blecm_FindFreeConMux t.
Proof.
  intros Hin. unfold blecm_FindFreeConMux.
  destruct (list_find (λ x, x = None) t) as [[i x]|] eqn:E; [lia|].
  apply list_find_None in E. rewrite Forall_forall in E.
  destruct (E _ Hin eq_refl).
Qed.

Lemma handle_unique_del (i : Z) (t : list (option Z)) :
  handle_unique t → handle_unique (blecm_DelConMux i t).
Proof.
  intros Hu a b h Ha Hb. unfold blecm_DelConMux in *.
  apply list_lookup_insert_Some in Ha as [(_ & ? & _)|[_ Ha]]; [discriminate|].
  apply list_lookup_insert_Some in Hb as [(_ & ? & _)|[_ Hb]]; [discriminate|].
  exact (Hu a b h Ha Hb).
Qed.

(** Once the slot found for [h] is released, [h] is in no slot. *)
Lemma evicted_not_live (h : Z) (t : list (option Z)) :
  handle_unique t →
  Some h ∉ (if 0 <=? blecm_FindConMux h t
            then blecm_DelConMux (blecm_FindConMux h t) t else t).
Proof.
  intros Hu. destruct (Z.leb_spec 0 (blecm_FindConMux h t)) as [Hf|Hf].
  - intros [k Hk]%list_elem_of_lookup_1. unfold blecm_DelConMux in Hk.
    apply list_lookup_insert_Some in Hk as [(_ & ? & _)|[Hne Hk]]; [discriminate|].
    apply Hne. exact (Hu _ _ h (FindConMux_found h t Hf) Hk).
  - apply FindConMux_missing. exact Hf.
Qed.

Lemma handle_unique_add (i h : Z) (t : list (option Z)) :
  handle_unique t → Some h ∉ t → handle_unique (blecm_AddConMux i h t).
Proof.
  intros Hu Hfresh a b h' Ha Hb. unfold blecm_AddConMux in *.
  apply list_lookup_insert_Some in Ha as [(<- & Ea & _)|[Hna Ha]];
    apply list_lookup_insert_Some in Hb as [(<- & Eb & _)|[Hnb Hb]].
  - reflexivity.
  - destruct Hfresh. rewrite Ea. exact (list_elem_of_lookup_2 _ _ _ Hb).
  - destruct Hfresh. rewrite Eb. exact (list_elem_of_lookup_2 _ _ _ Ha).
  - exact (Hu a b h' Ha Hb).
Qed.

Lemma handle_unique_mux_up (h : Z) (t : list (option Z)) :
  handle_unique t → handle_unique (mux_up h t).
Proof.
  intros Hu. unfold mux_up.
  pose proof (evicted_not_live h t Hu) as Hfresh.
  assert (handle_unique (if 0 <=? blecm_FindConMux h t
                         then blecm_DelConMux (blecm_FindConMux h t) t else t)) as Hu1.
  { destruct (0 <=? blecm_FindConMux h t); [apply handle_unique_del|]; exact Hu. }
  destruct (_ <? 0); [exact Hu1|].
  apply handle_unique_add; assumption.
Qed.

Lemma handle_unique_mux_down (h : Z) (t : list (option Z)) :
  handle_unique t → handle_unique (mux_down h t).
Proof.
  intros Hu. unfold mux_down.
  destruct (_ <? 0); [exact Hu|]. apply handle_unique_del. exact Hu.
Qed.

(** Registering a handle that is already live moves it at most: the set of
    live handles stays the same. *)
Lemma mux_up_live_again (h : Z) (t : list (option Z)) :
  handle_unique t → Some h ∈ t →
  ∀ h', Some h' ∈ mux_up h t ↔ Some h' ∈ t.
Proof.
  intros Hu Hlive h'. unfold mux_up.
  pose proof (FindConMux_live h t Hlive) as Hf.
  pose proof (FindConMux_found h t Hf) as Hi.
  destruct (Z.leb_spec 0 (blecm_FindConMux h t)) as [_|?]; [|lia].
  set (i := Z.to_nat (blecm_FindConMux h t)) in *.
  assert (blecm_DelConMux (blecm_FindConMux h t) t !! i = Some None) as Hi1.
  { unfold blecm_DelConMux. fold i. apply list_lookup_insert_eq.
    exact (lookup_lt_Some _ _ _ Hi). }
  pose proof (FindFreeConMux_free _ (list_elem_of_lookup_2 _ _ _ Hi1)) as Hj.
  pose proof (FindFreeConMux_found _ Hj) as Hj1.
  destruct (Z.ltb_spec (blecm_FindFreeConMux (blecm_DelConMux (blecm_FindConMux h t) t)) 0)
    as [?|_]; [lia|].
  set (t1 := blecm_DelConMux (blecm_FindConMux h t) t) in *.
  set (j := Z.to_nat (blecm_FindFreeConMux t1)) in *.
  unfold blecm_AddConMux. fold j. split.
  - intros [k Hk]%list_elem_of_lookup_1.
    apply list_lookup_insert_Some in Hk as [(_ & E & _)|[Hne Hk]].
    + injection E as <-. exact Hlive.
    + unfold t1, blecm_DelConMux in Hk. fold i in Hk.
      apply list_lookup_insert_Some in Hk as [(_ & ? & _)|[_ Hk]]; [discriminate|].
      exact (list_elem_of_lookup_2 _ _ _ Hk).
  - intros [k Hk]%list_elem_of_lookup_1.
    destruct (decide (h' = h)) as [->|Hne].
    + apply (list_elem_of_lookup_2 _ j). apply list_lookup_insert_eq.
      exact (lookup_lt_Some _ _ _ Hj1).
    + apply (list_elem_of_lookup_2 _ k).
      assert (t1 !! k = Some (Some h')) as Hk1.
      { unfold t1, blecm_DelConMux. fold i. rewrite list_lookup_insert_ne; [exact Hk|].
        intros <-. rewrite Hi in Hk. congruence. }
      rewrite list_lookup_insert_ne; [exact Hk1|].
      intros <-. rewrite Hj1 in Hk1. discriminate.
Qed.

(** ** Reachable states *)

Section Reachable.
Context `{Sdk}.

Lemma con_mux_connection_up dev smp (s : state) :
  con_mux (hello_client_connection_up dev smp s) = mux_up (con_handle s) (con_mux s).
Proof.
  unfold hello_client_connection_up, mux_up. cbv zeta.
  destruct (0 <=? blecm_FindConMux (con_handle s) (con_mux s)); state_simpl;
    (destruct (_ <? 0) eqn:E; [reflexivity|]); handler_cases; reflexivity.
Qed.

Lemma con_mux_connection_down (s : state) :
  con_mux (hello_client_connection_down s) = mux_down (con_handle s) (con_mux s).
Proof.
  unfold hello_client_connection_down, mux_down. cbv zeta.
  destruct (_ <? 0); [reflexivity|]. handler_cases; reflexivity.
Qed.

Lemma step_con_mux (e : event) (s s' : state) :
  step e s = Some s' →
  con_mux s' = match e with
               | connection_up h _ _ => mux_up h (con_mux s)
               | connection_down h => mux_down h (con_mux s)
               | _ => con_mux s
               end.
Proof.
  destruct e; cbn [step]; intros Hs; try injection Hs as <-.
  - exact (con_mux_connection_up dev smp (set_con_handle h s)).
  - exact (con_mux_connection_down (set_con_handle h s)).
  - unfold hello_client_app_timer. handler_cases; reflexivity.
  - reflexivity.
  - unfold hello_client_smp_pair_result. handler_cases; reflexivity.
  - reflexivity.
  - unfold hello_client_timer_callback. handler_cases; reflexivity.
  - unfold hello_client_advertisement_report in Hs. cbv zeta in Hs.
    destruct (_ <? _); [injection Hs as <-; reflexivity|].
    destruct (negb _); [|injection Hs as <-; reflexivity].
    destruct (adv_scan _ _ _ _) as [[|]|]; cbn in Hs; [| |discriminate];
      injection Hs as <-; reflexivity.
  - unfold hello_client_notification_handler, hello_client_process_data_from_peripheral.
    handler_cases; reflexivity.
  - unfold hello_client_indication_handler, hello_client_process_data_from_peripheral.
    handler_cases; reflexivity.
  - unfold hello_client_write_handler. handler_cases; reflexivity.
  - unfold hello_client_interrupt_handler. handler_cases; reflexivity.
Qed.

Lemma step_app_config (e : event) (s s' : state) :
  step e s = Some s' → app_config s' = app_config s.
Proof.
  destruct e; cbn [step]; intros Hs; try injection Hs as <-.
  - unfold hello_client_connection_up. handler_cases; reflexivity.
  - unfold hello_client_connection_down. handler_cases; reflexivity.
  - unfold hello_client_app_timer. handler_cases; reflexivity.
  - reflexivity.
  - unfold hello_client_smp_pair_result. handler_cases; reflexivity.
  - reflexivity.
  - unfold hello_client_timer_callback. handler_cases; reflexivity.
  - unfold hello_client_advertisement_report in Hs. cbv zeta in Hs.
    destruct (_ <? _); [injection Hs as <-; reflexivity|].
    destruct (negb _); [|injection Hs as <-; reflexivity].
    destruct (adv_scan _ _ _ _) as [[|]|]; cbn in Hs; [| |discriminate];
      injection Hs as <-; reflexivity.
  - unfold hello_client_notification_handler, hello_client_process_data_from_peripheral.
    handler_cases; reflexivity.
  - unfold hello_client_indication_handler, hello_client_process_data_from_peripheral.
    handler_cases; reflexivity.
  - unfold hello_client_write_handler. handler_cases; reflexivity.
  - unfold hello_client_interrupt_handler. handler_cases; reflexivity.
Qed.

Lemma run_invariant (P : state → Prop) :
  (∀ e s s', P s → step e s = Some s' → P s') →
  ∀ evs s s', P s → run evs s = Some s' → P s'.
Proof.
  intros Hstep evs. induction evs as [|e evs IH]; intros s s' Hs Hrun.
  - injection Hrun as <-. exact Hs.
  - cbn [run] in Hrun. destruct (step e s) as [s1|] eqn:E; [|discriminate].
    cbn in Hrun. exact (IH s1 s' (Hstep e s s1 Hs E) Hrun).
Qed.

Lemma run_handle_unique (nv : gmap Z (list byte)) (evs : list event) (s : state) :
  run evs (hello_client_create nv) = Some s → handle_unique (con_mux s).
Proof.
  intros Hrun.
  refine (run_invariant (λ s, handle_unique (con_mux s)) _ evs _ s _ Hrun).
  - intros e s0 s1 Hu Hs. rewrite (step_con_mux e s0 s1 Hs).
    destruct e; try exact Hu.
    + apply handle_unique_mux_up. exact Hu.
    + apply handle_unique_mux_down. exact Hu.
  - intros i j h Hi Hj. cbn [hello_client_create con_mux] in Hi.
    apply lookup_replicate in Hi as [? _]. discriminate.
Qed.

Lemma run_app_config (nv : gmap Z (list byte)) (evs : list event) (s : state) :
  run evs (hello_client_create nv) = Some s →
  app_config s = Z.lor CONNECT_HELLO_SENSOR SMP_PAIRING.
Proof.
  intros Hrun.
  refine (run_invariant (λ s, app_config s = Z.lor CONNECT_HELLO_SENSOR SMP_PAIRING)
            _ evs _ s _ Hrun).
  - intros e s0 s1 Hc Hs. rewrite (step_app_config e s0 s1 Hs). exact Hc.
  - reflexivity.
Qed.

(** C3, as amended: at every reachable state every handle sits in at most
    one live slot of the multiplexer; and a connection_up whose handle already
    maps to a live slot first releases that slot and then allocates, so it
    always finds a slot, keeps every handle in at most one slot and leaves the
    set of live handles as it was. *)
Theorem handle_maps_to_one_slot
    (nv : gmap Z (list byte)) (evs : list event) (s : state) :
  run evs (hello_client_create nv) = Some s →
  handle_unique (con_mux s)
  ∧ ∀ h dev smp, Some h ∈ con_mux s →
      ∃ s', step (connection_up h dev smp) s = Some s'
            ∧ handle_unique (con_mux s')
            ∧ (∀ h', Some h' ∈ con_mux s' ↔ Some h' ∈ con_mux s).
Proof.
  intros Hrun. pose proof (run_handle_unique nv evs s Hrun) as Hu.
  split; [exact Hu|].
  intros h dev smp Hlive. eexists. split; [reflexivity|].
  rewrite con_mux_connection_up. state_simpl. split.
  - apply handle_unique_mux_up. exact Hu.
  - apply mux_up_live_again; assumption.
Qed.

End Reachable.

Lemma handle_maps_to_one_slot_witness :
  let evs := [connection_up 0x40 link_to_central smpinfo_zero;
              connection_up 0x41 link_to_sensor smpinfo_zero;
              connection_down 0x40] in
  ∃ s, @run sample_sdk evs (hello_client_create ∅) = Some s
       ∧ con_mux s = [None; Some 0x41; None; None]
       ∧ (handle_unique (con_mux s)
          ∧ ∀ h dev smp, Some h ∈ con_mux s →
              ∃ s', @step sample_sdk (connection_up h dev smp) s = Some s'
                    ∧ handle_unique (con_mux s')
                    ∧ (∀ h', Some h' ∈ con_mux s' ↔ Some h' ∈ con_mux s)).
Proof.
  intros evs. eexists. split; [vm_compute; reflexivity|]. split; [reflexivity|].
  apply (@handle_maps_to_one_slot sample_sdk ∅ evs). vm_compute. reflexivity.
Defined.

(** C3, counterexample: two connection_up events with different handles, both
    for links on which a remote central has connected to this device.  The
    second is given a slot of its own: two live slots then have the central
    role. *)
Lemma two_central_links :
  ∃ s,
    @run sample_sdk
      [connection_up 0x40 link_to_central smpinfo_zero;
       connection_up 0x41 link_to_central smpinfo_zero]
      (hello_client_create ∅) = Some s
    ∧ con_mux s = [Some 0x40; Some 0x41; None; None]
    ∧ central_slots s = [0; 1]%nat
    ∧ ¬ (length (central_slots s) ≤ 1)%nat.
Proof.
  eexists. split; [vm_compute; reflexivity|]. split; [reflexivity|].
  split; [vm_compute; reflexivity|]. vm_compute. lia.
Qed.

(** C1: a central connects (the link is reported with this device as its
    peripheral, so [num_peripherals] is not incremented) and disconnects:
    [hello_client_connection_down] decrements [num_peripherals] all the same,
    and the 8-bit counter wraps from 0 to 255. *)
Theorem num_peripherals_underflows `{Sdk} (nv : gmap Z (list byte)) :
  num_peripherals <$>
    run [connection_up 0x40 link_to_central smpinfo_zero; connection_down 0x40]
        (hello_client_create nv)
  = Some 255.
Proof. vm_compute. reflexivity. Qed.

(** ** Advertisement reports *)

Lemma byte_at_app (pre rest : list byte) (k : nat) :
  byte_at (pre ++ rest) (Z.of_nat (length pre + k)) = byte_to_Z <$> rest !! k.
Proof.
  unfold byte_at. destruct (Z.ltb_spec (Z.of_nat (length pre + k)) 0); [lia|].
  rewrite Nat2Z.id, lookup_app_r by lia. do 2 f_equal. lia.
Qed.

Lemma memcmp16_eq_app (pre rest ref : list byte) (k : nat) :
  memcmp16_eq (pre ++ rest) (Z.of_nat (length pre + k)) ref =
    if bool_decide (length (take 16 (drop k rest)) = 16%nat)
    then Some (bool_decide (take 16 (drop k rest) = take 16 ref)) else None.
Proof.
  unfold memcmp16_eq. rewrite Nat2Z.id, drop_app_add'; reflexivity.
Qed.

Lemma adv_fields_bytes_cons (f : list byte) (fs : list (list byte)) :
  adv_fields_bytes (f :: fs) = adv_field_bytes f ++ adv_fields_bytes fs.
Proof. reflexivity. Qed.

Lemma adv_fields_bytes_length (fs : list (list byte)) :
  (length fs ≤ length (adv_fields_bytes fs))%nat.
Proof.
  induction fs as [|f fs IH]; [reflexivity|].
  rewrite adv_fields_bytes_cons, length_app. cbn [adv_field_bytes length]. lia.
Qed.

Section Scan.
Context `{Sdk}.
Hypothesis hello_service_size : length hello_service = 16%nat.
Hypothesis uuid128_comp_byte : 0 ≤ ADV_SERVICE_UUID128_COMP < 256.

(** One turn of the loop at the start of a field: the three-part test
    succeeds exactly on the field looked for. *)
Lemma field_test (pre rest f : list byte) :
  (length f ≤ 255)%nat →
  let buf := pre ++ adv_field_bytes f ++ rest in
  let ptr := Z.of_nat (length pre) in
  byte_at buf ptr = Some (Z.of_nat (length f))
  ∧ (if Z.of_nat (length f) =? 16 + 1 then
       val ← byte_at buf (ptr + 1);
       if val =? ADV_SERVICE_UUID128_COMP
       then memcmp16_eq buf (ptr + 2) hello_service
       else Some false
     else Some false) = Some (bool_decide (f = target_field)).
Proof.
  intros Hlen buf ptr. subst buf ptr. split.
  - replace (Z.of_nat (length pre)) with (Z.of_nat (length pre + 0)) by (f_equal; lia).
    rewrite byte_at_app. cbn. rewrite byte_to_Z_to_byte by lia. reflexivity.
  - assert (length target_field = 17%nat) as Ht
      by (unfold target_field; cbn [length]; rewrite hello_service_size; reflexivity).
    destruct (Z.eqb_spec (Z.of_nat (length f)) (16 + 1)) as [E|E].
    2:{ rewrite bool_decide_eq_false_2; [reflexivity|]. intros ->. lia. }
    destruct f as [|t body]; [cbn in E; lia|].
    assert (length body = 16%nat) as Hb by (cbn [length] in E; lia).
    replace (Z.of_nat (length pre) + 1) with (Z.of_nat (length pre + 1)) by lia.
    replace (Z.of_nat (length pre) + 2) with (Z.of_nat (length pre + 2)) by lia.
    rewrite byte_at_app, memcmp16_eq_app. cbn [adv_field_bytes app lookup list_lookup fmap option_fmap option_map mbind option_bind drop].
    rewrite drop_0, take_app_length' by (symmetry; exact Hb).
    rewrite bool_decide_eq_true_2 by exact Hb.
    rewrite firstn_all2 by lia.
    unfold target_field.
    destruct (Z.eqb_spec (byte_to_Z t) ADV_SERVICE_UUID128_COMP) as [Ev|Ev].
    + f_equal. rewrite <- Ev, Z_to_byte_to_Z.
      apply bool_decide_ext. split; [intros ->; reflexivity | intros [= ->]; reflexivity].
    + rewrite bool_decide_eq_false_2; [reflexivity|].
      intros [= -> _]. apply Ev. apply byte_to_Z_to_byte. exact uuid128_comp_byte.
Qed.

(** Over a well-formed field list the loop looks at each field in turn and
    leaves through the match exactly when the field looked for is there. *)
Lemma adv_scan_fields (fs : list (list byte)) :
  ∀ (fuel : nat) (pre rest : list byte),
    Forall (λ f, (length f ≤ 255)%nat) fs → fs ≠ [] → (length fs ≤ fuel)%nat →
    adv_scan fuel (pre ++ adv_fields_bytes fs ++ rest)
      (Z.of_nat (length pre + length (adv_fields_bytes fs)))
      (Z.of_nat (length pre))
    = Some (bool_decide (target_field ∈ fs)).
Proof.
  induction fs as [|f fs IH]; intros fuel pre rest Hall Hne Hfuel; [contradiction|].
  apply Forall_cons in Hall as [Hf Hall].
  destruct fuel as [|fuel]; [cbn in Hfuel; lia|].
  rewrite adv_fields_bytes_cons, <- app_assoc.
  destruct (field_test pre (adv_fields_bytes fs ++ rest) f Hf) as [Hlen Htest].
  cbn [adv_scan]. rewrite Hlen. cbn [mbind option_bind].
  rewrite Htest. cbn [mbind option_bind].
  destruct (decide (f = target_field)) as [->|Hnf].
  - rewrite bool_decide_eq_true_2 by reflexivity.
    rewrite bool_decide_eq_true_2 by (apply list_elem_of_here). reflexivity.
  - rewrite (bool_decide_eq_false_2 (f = target_field)) by exact Hnf.
    rewrite length_app. cbn [adv_field_bytes length].
    destruct fs as [|f' fs'].
    + cbn [adv_fields_bytes fmap list_fmap concat length].
      destruct (Z.leb_spec (Z.of_nat (length pre + (S (length f) + 0)))
                  (Z.of_nat (length pre) + (Z.of_nat (length f) + 1))) as [_|?]; [|lia].
      rewrite bool_decide_eq_false_2; [reflexivity|].
      intros Hin%list_elem_of_singleton. congruence.
    + pose proof (adv_fields_bytes_length (f' :: fs')) as Hl. cbn [length] in Hl.
      destruct (Z.leb_spec (Z.of_nat (length pre + (S (length f) + length (adv_fields_bytes (f' :: fs')))))
                  (Z.of_nat (length pre) + (Z.of_nat (length f) + 1))) as [?|_]; [lia|].
      specialize (IH fuel (pre ++ adv_field_bytes f) rest Hall).
      rewrite length_app in IH. cbn [adv_field_bytes length] in IH.
      rewrite <- app_assoc in IH. cbn [adv_field_bytes] in IH.
      replace (Z.of_nat (length pre) + (Z.of_nat (length f) + 1))
        with (Z.of_nat (length pre + S (length f))) by lia.
      replace (length pre + (S (length f) + length (adv_fields_bytes (f' :: fs'))))%nat
        with (length pre + S (length f) + length (adv_fields_bytes (f' :: fs')))%nat by lia.
      cbn [adv_field_bytes]. rewrite IH; [|discriminate|cbn [length] in Hfuel |- *; lia].
      f_equal. apply bool_decide_ext. split.
      * intros Hin. apply elem_of_cons. right. exact Hin.
      * intros [E|Hin]%elem_of_cons; [congruence | exact Hin].
Qed.

End Scan.

Lemma adv_field_shorter (f : list byte) (fs : list (list byte)) :
  f ∈ fs → (length f < length (adv_fields_bytes fs))%nat.
Proof.
  induction fs as [|g fs IH]; intros Hin; [inversion Hin|].
  rewrite adv_fields_bytes_cons, length_app. cbn [adv_field_bytes length].
  apply elem_of_cons in Hin as [->|Hin]; [lia|]. specialize (IH Hin). lia.
Qed.

(** C7: in every reachable state, for every advertisement report whose data
    is a well-formed, non-empty field list (each field preceded by its length
    byte; total length [dataLen], which fits its byte and does not exceed
    HCIULP_MAX_DATA_LENGTH; whatever follows in the buffer is ignored): if the
    list contains the field of length 17 and type ADV_SERVICE_UUID128_COMP
    whose 16 payload bytes are the Hello service UUID, the handler stops
    advertising, issues exactly one connect to the reporting peer's address
    and stops scanning; if it contains no such field, no connect (and nothing
    else beyond the watchdog restart and the ROM's report callback) is
    issued. *)
Theorem advertisement_report_connects_on_hello_service `{Sdk}
    (nv : gmap Z (list byte)) (evs : list event) (s : state)
    (evt : HCIULP_ADV_PACKET_REPORT_WDATA) (fs : list (list byte)) (rest : list byte) :
  length hello_service = 16%nat →
  0 ≤ ADV_SERVICE_UUID128_COMP < 256 →
  run evs (hello_client_create nv) = Some s →
  fs ≠ [] →
  data evt = adv_fields_bytes fs ++ rest →
  dataLen evt = Z.of_nat (length (adv_fields_bytes fs)) →
  dataLen evt ≤ HCIULP_MAX_DATA_LENGTH →
  dataLen evt < 2 ^ 8 →
  ∃ s', step (advertisement_report evt) s = Some s'
        ∧ out s' = out s
            ++ [(con_handle s, wdog_restart); (con_handle s, blecen_leAdvReportCb)]
            ++ (if bool_decide (target_field ∈ fs)
                then connect_calls evt (con_handle s) else []).
Proof.
  intros Hsize Hcomp Hrun Hne Hdata Hlen Hmax Hbyte.
  pose proof (run_app_config nv evs s Hrun) as Hcfg.
  assert (Forall (λ f, (length f ≤ 255)%nat) fs) as Hall.
  { apply Forall_forall. intros f Hf. pose proof (adv_field_shorter f fs Hf). lia. }
  cbn [step]. unfold hello_client_advertisement_report. cbv zeta.
  unfold UINT8. rewrite Z.mod_small by lia.
  destruct (Z.ltb_spec HCIULP_MAX_DATA_LENGTH (dataLen evt)) as [?|_]; [lia|].
  state_simpl. rewrite Hcfg.
  change (negb (Z.land (Z.lor CONNECT_HELLO_SENSOR SMP_PAIRING) CONNECT_HELLO_SENSOR =? 0))
    with true. cbv iota.
  rewrite Hdata, Hlen.
  pose proof (adv_scan_fields Hsize Hcomp fs
                (S (Z.to_nat (Z.of_nat (length (adv_fields_bytes fs))))) [] rest
                Hall Hne) as Hscan.
  cbn [app length Nat.add] in Hscan. change (Z.of_nat 0) with 0 in Hscan.
  rewrite Hscan.
  2:{ pose proof (adv_fields_bytes_length fs). lia. }
  cbn [mbind option_bind]. eexists. split; [reflexivity|].
  destruct (bool_decide (target_field ∈ fs)); state_simpl.
  - unfold connect_calls. rewrite <- !app_assoc. reflexivity.
  - rewrite <- !app_assoc. reflexivity.
Qed.

Lemma advertisement_report_connects_on_hello_service_witness :
  let fs := [flags_field; @target_field sample_sdk] in
  let evt := report_of fs in
  ∃ s', @step sample_sdk (advertisement_report evt) booted = Some s'
        ∧ out s' = out booted
            ++ [(con_handle booted, wdog_restart);
                (con_handle booted, blecen_leAdvReportCb)]
            ++ (if bool_decide (@target_field sample_sdk ∈ fs)
                then connect_calls evt (con_handle booted) else []).
Proof.
  intros fs evt.
  refine (@advertisement_report_connects_on_hello_service sample_sdk ∅ [] booted evt fs []
            _ _ _ _ _ _ _ _);
    [reflexivity | vm_compute; split; congruence | reflexivity | discriminate
    | reflexivity | reflexivity | vm_compute; congruence | reflexivity ].
Defined.

(** The two sample reports, run: the one that carries the Hello service UUID
    triggers the connect, the one that carries another UUID does not. *)
Example report_with_hello_service :
  out <$> @step sample_sdk
            (advertisement_report (report_of [flags_field; @target_field sample_sdk]))
            booted
  = Some (out booted ++ [(0, wdog_restart); (0, blecen_leAdvReportCb)]
          ++ connect_calls (report_of [flags_field; @target_field sample_sdk]) 0).
Proof. vm_compute. reflexivity. Qed.

Example report_with_other_uuid :
  out <$> @step sample_sdk
            (advertisement_report (report_of [flags_field; other_uuid_field]))
            booted
  = Some (out booted ++ [(0, wdog_restart); (0, blecen_leAdvReportCb)]).
Proof. vm_compute. reflexivity. Qed.

(** ** Further properties of the handlers *)

Lemma FindConMux_absent (h : Z) (t : list (option Z)) :
  Some h ∉ t → blecm_FindConMux h t < 0.
Proof.
  intros Hn. destruct (Z.lt_ge_cases (blecm_FindConMux h t) 0) as [?|Hge]; [assumption|].
  destruct Hn. exact (list_elem_of_lookup_2 _ _ _ (FindConMux_found h t Hge)).
Qed.

Lemma FindFreeConMux_full (t : list (option Z)) :
  None ∉ t → blecm_FindFreeConMux t < 0.
Proof.
  intros Hn. destruct (Z.lt_ge_cases (blecm_FindFreeConMux t) 0) as [?|Hge]; [assumption|].
  destruct Hn. exact (list_elem_of_lookup_2 _ _ _ (FindFreeConMux_found t Hge)).
Qed.

(** X1: a connection-up for a handle that is not registered, arriving when
    no slot of the multiplexer is free, registers nothing: the handler asks
    the stack to disconnect the new link and changes nothing else. *)
Theorem connection_up_table_full `{Sdk}
    (h : Z) (dev : EMCONINFO_DEVINFO) (smp : LESMP_INFO) (s : state) :
  Some h ∉ con_mux s → None ∉ con_mux s →
  step (connection_up h dev smp) s
  = Some (call blecm_disconnect_TERMINATED_BY_LOCAL_HOST (set_con_handle h s)).
Proof.
  intros Hh Hfull. cbn [step]. f_equal.
  unfold hello_client_connection_up. cbv zeta. state_simpl.
  pose proof (FindConMux_absent h _ Hh) as Hf.
  destruct (Z.leb_spec 0 (blecm_FindConMux h (con_mux s))) as [?|_]; [lia|].
  state_simpl.
  pose proof (FindFreeConMux_full _ Hfull) as Hfree.
  destruct (Z.ltb_spec (blecm_FindFreeConMux (con_mux s)) 0) as [_|?]; [|lia].
  reflexivity.
Qed.

Lemma connection_up_table_full_witness :
  con_mux four_sensors = [Some 0x40; Some 0x41; Some 0x42; Some 0x43]
  ∧ @step sample_sdk (connection_up 0x44 link_to_central smpinfo_zero) four_sensors
    = Some (call blecm_disconnect_TERMINATED_BY_LOCAL_HOST
              (set_con_handle 0x44 four_sensors)).
Proof.
  split; [vm_compute; reflexivity|].
  apply (@connection_up_table_full sample_sdk).
  - vm_compute. intros Hin. repeat (apply elem_of_cons in Hin as [Hin|Hin]; [discriminate|]).
    inversion Hin.
  - vm_compute. intros Hin. repeat (apply elem_of_cons in Hin as [Hin|Hin]; [discriminate|]).
    inversion Hin.
Defined.

(** X2: a connection-down for a handle that is not registered is ignored:
    no counter, slot or record changes and no call is issued. *)
Theorem connection_down_unknown_handle `{Sdk} (h : Z) (s : state) :
  Some h ∉ con_mux s →
  step (connection_down h) s = Some (set_con_handle h s).
Proof.
  intros Hh. cbn [step]. f_equal. unfold hello_client_connection_down.
  cbv zeta. state_simpl.
  pose proof (FindConMux_absent h _ Hh) as Hf.
  destruct (Z.ltb_spec (blecm_FindConMux h (con_mux s)) 0) as [_|?]; [|lia].
  reflexivity.
Qed.

Lemma connection_down_unknown_handle_witness :
  @step sample_sdk (connection_down 0x55) four_sensors
  = Some (set_con_handle 0x55 four_sensors).
Proof.
  apply (@connection_down_unknown_handle sample_sdk).
  vm_compute. intros Hin. repeat (apply elem_of_cons in Hin as [Hin|Hin]; [discriminate|]).
  inversion Hin.
Defined.

Lemma mux_up_length (h : Z) (t : list (option Z)) : length (mux_up h t) = length t.
Proof.
  unfold mux_up, blecm_AddConMux, blecm_DelConMux.
  repeat case_match; rewrite ?length_insert; reflexivity.
Qed.

Lemma mux_down_length (h : Z) (t : list (option Z)) : length (mux_down h t) = length t.
Proof.
  unfold mux_down, blecm_DelConMux.
  repeat case_match; rewrite ?length_insert; reflexivity.
Qed.

Lemma live_handles_length (t : list (option Z)) :
  (length (live_handles t) ≤ length t)%nat.
Proof.
  unfold live_handles. induction t as [|[h|] t IH]; cbn; lia.
Qed.

Section Sizes.
Context `{Sdk}.

Lemma step_info_length (e : event) (s s' : state) :
  step e s = Some s' →
  length (dev_info s') = length (dev_info s)
  ∧ length (smp_info s') = length (smp_info s).
Proof.
  destruct e; cbn [step]; intros Hs; try injection Hs as <-.
  - unfold hello_client_connection_up. handler_cases;
      rewrite ?length_insert; split; reflexivity.
  - unfold hello_client_connection_down. handler_cases;
      rewrite ?length_insert; split; reflexivity.
  - unfold hello_client_app_timer. handler_cases; split; reflexivity.
  - split; reflexivity.
  - unfold hello_client_smp_pair_result. handler_cases; split; reflexivity.
  - split; reflexivity.
  - unfold hello_client_timer_callback. handler_cases; split; reflexivity.
  - unfold hello_client_advertisement_report in Hs. cbv zeta in Hs.
    destruct (_ <? _); [injection Hs as <-; split; reflexivity|].
    destruct (negb _); [|injection Hs as <-; split; reflexivity].
    destruct (adv_scan _ _ _ _) as [[|]|]; cbn in Hs; [| |discriminate];
      injection Hs as <-; split; reflexivity.
  - unfold hello_client_notification_handler, hello_client_process_data_from_peripheral.
    handler_cases; split; reflexivity.
  - unfold hello_client_indication_handler, hello_client_process_data_from_peripheral.
    handler_cases; split; reflexivity.
  - unfold hello_client_write_handler. handler_cases; split; reflexivity.
  - unfold hello_client_interrupt_handler. handler_cases; split; reflexivity.
Qed.

(** In every reachable state the multiplexer and the two per-slot arrays
    have the size given to them at start-up. *)
Lemma slot_tables_keep_their_size
    (nv : gmap Z (list byte)) (evs : list event) (s : state) :
  run evs (hello_client_create nv) = Some s →
  length (con_mux s) = Z.to_nat HELLO_CLIENT_MAX_PERIPHERALS
  ∧ length (dev_info s) = Z.to_nat HELLO_CLIENT_MAX_PERIPHERALS
  ∧ length (smp_info s) = Z.to_nat HELLO_CLIENT_MAX_PERIPHERALS
  ∧ (length (live_handles (con_mux s)) ≤ Z.to_nat HELLO_CLIENT_MAX_PERIPHERALS)%nat.
Proof.
  intros Hrun.
  assert (length (con_mux s) = Z.to_nat HELLO_CLIENT_MAX_PERIPHERALS
          ∧ length (dev_info s) = Z.to_nat HELLO_CLIENT_MAX_PERIPHERALS
          ∧ length (smp_info s) = Z.to_nat HELLO_CLIENT_MAX_PERIPHERALS) as (Hm & Hd & Hp).
  { refine (run_invariant
              (λ s, length (con_mux s) = Z.to_nat HELLO_CLIENT_MAX_PERIPHERALS
                    ∧ length (dev_info s) = Z.to_nat HELLO_CLIENT_MAX_PERIPHERALS
                    ∧ length (smp_info s) = Z.to_nat HELLO_CLIENT_MAX_PERIPHERALS)
              _ evs _ s _ Hrun).
    - intros e s0 s1 (Hm & Hd & Hp) Hs.
      destruct (step_info_length e s0 s1 Hs) as [Ed Ep].
      rewrite Ed, Ep, (step_con_mux e s0 s1 Hs).
      split; [|split; assumption].
      destruct e; rewrite ?mux_up_length, ?mux_down_length; exact Hm.
    - cbn [hello_client_create con_mux dev_info smp_info].
      rewrite !length_replicate. repeat split. }
  repeat split; try assumption.
  rewrite <- Hm. apply live_handles_length.
Qed.

End Sizes.


Lemma FindConMux_added (h : Z) (j : nat) (t : list (option Z)) :
  Some h ∉ t → (j < length t)%nat →
  blecm_FindConMux h (<[j := Some h]> t) = Z.of_nat j.
Proof.
  intros Hfresh Hj. unfold blecm_FindConMux.
  assert (list_find (λ x, x = Some h) (<[j := Some h]> t) = Some (j, Some h)) as ->.
  { apply list_find_Some. split; [apply list_lookup_insert_eq; exact Hj|].
    split; [reflexivity|]. intros k y Hk Hlt ->.
    rewrite list_lookup_insert_ne in Hk by lia.
    destruct Hfresh. exact (list_elem_of_lookup_2 _ _ _ Hk). }
  reflexivity.
Qed.

(** Registering a fresh handle and releasing it gives the table back. *)
Lemma mux_down_up (h : Z) (t : list (option Z)) :
  Some h ∉ t → mux_down h (mux_up h t) = t.
Proof.
  intros Hfresh. unfold mux_up.
  pose proof (FindConMux_absent h t Hfresh) as Hf.
  destruct (Z.leb_spec 0 (blecm_FindConMux h t)) as [?|_]; [lia|].
  destruct (Z.ltb_spec (blecm_FindFreeConMux t) 0) as [Hfull|Hfree].
  - unfold mux_down. destruct (Z.ltb_spec (blecm_FindConMux h t) 0); [reflexivity|lia].
  - pose proof (FindFreeConMux_found t Hfree) as Hj.
    unfold mux_down, blecm_AddConMux, blecm_DelConMux.
    rewrite (FindConMux_added h _ t Hfresh (lookup_lt_Some _ _ _ Hj)).
    destruct (Z.ltb_spec (Z.of_nat (Z.to_nat (blecm_FindFreeConMux t))) 0); [lia|].
    rewrite Nat2Z.id, list_insert_insert_eq. apply list_insert_id. exact Hj.
Qed.

Lemma role_stored (dev : EMCONINFO_DEVINFO) (l : list EMCONINFO_DEVINFO) (i : nat) :
  role (default devinfo_zero (<[i := dev]> l !! i))
  = if decide (i < length l)%nat then role dev else 0.
Proof.
  destruct (decide (i < length l)%nat) as [Hi|Hi].
  - rewrite list_lookup_insert_eq by exact Hi. reflexivity.
  - rewrite list_insert_ge by lia. rewrite lookup_ge_None_2 by lia. reflexivity.
Qed.

Section Links.
Context `{Sdk}.

Lemma connection_up_counters (dev : EMCONINFO_DEVINFO) (smp : LESMP_INFO) (s : state) :
  let t1 := if 0 <=? blecm_FindConMux (con_handle s) (con_mux s)
            then blecm_DelConMux (blecm_FindConMux (con_handle s) (con_mux s)) (con_mux s)
            else con_mux s in
  let j := blecm_FindFreeConMux t1 in
  let r := role (default devinfo_zero (<[Z.to_nat j := dev]> (dev_info s) !! Z.to_nat j)) in
  let s' := hello_client_connection_up dev smp s in
  num_peripherals s' =
    (if j <? 0 then num_peripherals s
     else if r =? CENTRAL_ROLE then UINT8 (num_peripherals s + 1)
          else num_peripherals s)
  ∧ handle_to_central s' =
    (if j <? 0 then handle_to_central s
     else if r =? CENTRAL_ROLE then handle_to_central s
          else UINT8 (con_handle s))
  ∧ dev_info s' =
    (if j <? 0 then dev_info s else <[Z.to_nat j := dev]> (dev_info s)).
Proof.
  unfold hello_client_connection_up, dev_info_at. cbv zeta.
  destruct (0 <=? blecm_FindConMux (con_handle s) (con_mux s)); state_simpl;
    (destruct (_ <? 0); [repeat split; reflexivity|]); state_simpl;
    (destruct (_ =? CENTRAL_ROLE)); handler_cases; repeat split; (reflexivity || congruence).
Qed.

Lemma connection_down_counters (s : state) :
  let i := blecm_FindConMux (con_handle s) (con_mux s) in
  let s' := hello_client_connection_down s in
  num_peripherals s' =
    (if i <? 0 then num_peripherals s else UINT8 (num_peripherals s - 1))
  ∧ handle_to_central s' =
    (if i <? 0 then handle_to_central s
     else if role (dev_info_at s (Z.to_nat i)) =? PERIPHERAL_ROLE then 0
          else handle_to_central s).
Proof.
  unfold hello_client_connection_down. cbv zeta.
  destruct (_ <? 0); [split; reflexivity|].
  unfold dev_info_at. handler_cases; split; (reflexivity || congruence).
Qed.

Lemma mux_up_fresh (h : Z) (t : list (option Z)) :
  Some h ∉ t → None ∈ t →
  0 ≤ blecm_FindFreeConMux t
  ∧ mux_up h t = <[Z.to_nat (blecm_FindFreeConMux t) := Some h]> t
  ∧ blecm_FindConMux h (mux_up h t) = blecm_FindFreeConMux t.
Proof.
  intros Hfresh Hfree. unfold mux_up.
  pose proof (FindConMux_absent h t Hfresh) as Hf.
  pose proof (FindFreeConMux_free t Hfree) as Hj.
  destruct (Z.leb_spec 0 (blecm_FindConMux h t)) as [?|_]; [lia|].
  destruct (Z.ltb_spec (blecm_FindFreeConMux t) 0) as [?|_]; [lia|].
  split; [exact Hj|]. split; [reflexivity|].
  unfold blecm_AddConMux. rewrite FindConMux_added; [lia|exact Hfresh|].
  exact (lookup_lt_Some _ _ _ (FindFreeConMux_found t Hj)).
Qed.

Lemma UINT8_succ_pred (n : Z) : 0 ≤ n < 2 ^ 8 → UINT8 (UINT8 (n + 1) - 1) = n.
Proof.
  intros Hn. unfold UINT8. rewrite Zminus_mod_idemp_l.
  replace (n + 1 - 1) with n by lia. apply Z.mod_small. exact Hn.
Qed.

(** X4: a sensor link (this device is its central) that comes up on a fresh
    handle while a slot is free, and then goes down, is registered in between
    and counted in [num_peripherals]; afterwards the multiplexer, the counter
    and [handle_to_central] are what they were. *)
Theorem sensor_link_up_down_roundtrip
    (h : Z) (dev : EMCONINFO_DEVINFO) (smp : LESMP_INFO) (s : state) :
  role dev = CENTRAL_ROLE →
  Some h ∉ con_mux s → None ∈ con_mux s →
  0 ≤ num_peripherals s < 2 ^ 8 →
  ∃ s1 s2,
    step (connection_up h dev smp) s = Some s1
    ∧ step (connection_down h) s1 = Some s2
    ∧ Some h ∈ con_mux s1
    ∧ num_peripherals s1 = UINT8 (num_peripherals s + 1)
    ∧ con_mux s2 = con_mux s
    ∧ num_peripherals s2 = num_peripherals s
    ∧ handle_to_central s2 = handle_to_central s.
Proof.
  intros Hrole Hfresh Hfree Hn. eexists _, _.
  split; [reflexivity|]. split; [reflexivity|].
  destruct (mux_up_fresh h (con_mux s) Hfresh Hfree) as (Hj & Hup & Hfind).
  pose proof (FindConMux_absent h _ Hfresh) as Hf.
  destruct (connection_up_counters dev smp (set_con_handle h s)) as (Hn1 & Hc1 & Hd1).
  cbv zeta in Hn1, Hc1, Hd1. state_simpl.
  destruct (Z.leb_spec 0 (blecm_FindConMux h (con_mux s))) as [?|_]; [lia|].
  destruct (Z.ltb_spec (blecm_FindFreeConMux (con_mux s)) 0) as [?|_]; [lia|].
  rewrite role_stored, Hrole in Hn1, Hc1.
  assert ((if decide (Z.to_nat (blecm_FindFreeConMux (con_mux s)) < length (dev_info s))%nat
           then CENTRAL_ROLE else 0) = CENTRAL_ROLE) as Er by (case_decide; reflexivity).
  rewrite Er in Hn1, Hc1. change (CENTRAL_ROLE =? CENTRAL_ROLE) with true in Hn1, Hc1.
  cbv iota in Hn1, Hc1.
  set (s1 := hello_client_connection_up dev smp (set_con_handle h s)) in *.
  assert (con_mux s1 = mux_up h (con_mux s)) as Hm1
    by exact (con_mux_connection_up dev smp (set_con_handle h s)).
  destruct (connection_down_counters (set_con_handle h s1)) as (Hn2 & Hc2).
  cbv zeta in Hn2, Hc2. unfold dev_info_at in Hc2. state_simpl.
  rewrite Hm1, Hfind in Hn2, Hc2.
  destruct (Z.ltb_spec (blecm_FindFreeConMux (con_mux s)) 0) as [?|_]; [lia|].
  rewrite Hd1, role_stored, Hrole in Hc2. rewrite Er in Hc2.
  change (CENTRAL_ROLE =? PERIPHERAL_ROLE) with false in Hc2. cbv iota in Hc2.
  split.
  { rewrite Hm1, Hup. apply (list_elem_of_lookup_2 _ (Z.to_nat (blecm_FindFreeConMux (con_mux s)))).
    apply list_lookup_insert_eq.
    exact (lookup_lt_Some _ _ _ (FindFreeConMux_found _ Hj)). }
  split; [exact Hn1|].
  split.
  { rewrite (con_mux_connection_down (set_con_handle h s1)). state_simpl.
    rewrite Hm1. apply mux_down_up. exact Hfresh. }
  split; [rewrite Hn2, Hn1; apply UINT8_succ_pred; exact Hn|].
  rewrite Hc2, Hc1. reflexivity.
Qed.

(** X5: in every reachable state, a link to a central (this device is its
    peripheral) that comes up on a fresh handle while a slot is free stores the
    low eight bits of the handle in [handle_to_central] and leaves
    [num_peripherals] alone; when it goes down the slot is free again,
    [handle_to_central] is 0 and [num_peripherals] has been decremented
    modulo 256. *)
Theorem central_link_up_down_cycle
    (nv : gmap Z (list byte)) (evs : list event)
    (h : Z) (dev : EMCONINFO_DEVINFO) (smp : LESMP_INFO) (s : state) :
  run evs (hello_client_create nv) = Some s →
  role dev = PERIPHERAL_ROLE →
  Some h ∉ con_mux s → None ∈ con_mux s →
  ∃ s1 s2,
    step (connection_up h dev smp) s = Some s1
    ∧ step (connection_down h) s1 = Some s2
    ∧ Some h ∈ con_mux s1
    ∧ handle_to_central s1 = h mod 2 ^ 8
    ∧ num_peripherals s1 = num_peripherals s
    ∧ con_mux s2 = con_mux s
    ∧ handle_to_central s2 = 0
    ∧ num_peripherals s2 = UINT8 (num_peripherals s - 1).
Proof.
  intros Hrun Hrole Hfresh Hfree.
  assert (length (dev_info s) = length (con_mux s)) as Hlen.
  { destruct (slot_tables_keep_their_size nv evs s Hrun) as (Hm & Hd & _).
    rewrite Hm, Hd. reflexivity. }
  eexists _, _.
  split; [reflexivity|]. split; [reflexivity|].
  destruct (mux_up_fresh h (con_mux s) Hfresh Hfree) as (Hj & Hup & Hfind).
  pose proof (FindConMux_absent h _ Hfresh) as Hf.
  pose proof (lookup_lt_Some _ _ _ (FindFreeConMux_found _ Hj)) as Hlt.
  destruct (connection_up_counters dev smp (set_con_handle h s)) as (Hn1 & Hc1 & Hd1).
  cbv zeta in Hn1, Hc1, Hd1. state_simpl.
  destruct (Z.leb_spec 0 (blecm_FindConMux h (con_mux s))) as [?|_]; [lia|].
  destruct (Z.ltb_spec (blecm_FindFreeConMux (con_mux s)) 0) as [?|_]; [lia|].
  rewrite role_stored, Hrole in Hn1, Hc1.
  assert ((if decide (Z.to_nat (blecm_FindFreeConMux (con_mux s)) < length (dev_info s))%nat
           then PERIPHERAL_ROLE else 0) = PERIPHERAL_ROLE) as Er
    by (case_decide; [reflexivity | lia]).
  rewrite Er in Hn1, Hc1. change (PERIPHERAL_ROLE =? CENTRAL_ROLE) with false in Hn1, Hc1.
  cbv iota in Hn1, Hc1.
  set (s1 := hello_client_connection_up dev smp (set_con_handle h s)) in *.
  assert (con_mux s1 = mux_up h (con_mux s)) as Hm1
    by exact (con_mux_connection_up dev smp (set_con_handle h s)).
  destruct (connection_down_counters (set_con_handle h s1)) as (Hn2 & Hc2).
  cbv zeta in Hn2, Hc2. unfold dev_info_at in Hc2. state_simpl.
  rewrite Hm1, Hfind in Hn2, Hc2.
  destruct (Z.ltb_spec (blecm_FindFreeConMux (con_mux s)) 0) as [?|_]; [lia|].
  rewrite Hd1, role_stored, Hrole in Hc2. rewrite Er in Hc2.
  change (PERIPHERAL_ROLE =? PERIPHERAL_ROLE) with true in Hc2. cbv iota in Hc2.
  split.
  { rewrite Hm1, Hup. apply (list_elem_of_lookup_2 _ (Z.to_nat (blecm_FindFreeConMux (con_mux s)))).
    apply list_lookup_insert_eq. exact Hlt. }
  split; [exact Hc1|]. split; [exact Hn1|].
  split.
  { rewrite (con_mux_connection_down (set_con_handle h s1)). state_simpl.
    rewrite Hm1. apply mux_down_up. exact Hfresh. }
  split; [exact Hc2|]. rewrite Hn2, Hn1. reflexivity.
Qed.

End Links.

Lemma sensor_link_up_down_roundtrip_witness :
  ∃ s1 s2,
    @step sample_sdk (connection_up 0x41 link_to_sensor smpinfo_zero) central_connected = Some s1
    ∧ @step sample_sdk (connection_down 0x41) s1 = Some s2
    ∧ Some 0x41 ∈ con_mux s1
    ∧ num_peripherals s1 = UINT8 (num_peripherals central_connected + 1)
    ∧ con_mux s2 = con_mux central_connected
    ∧ num_peripherals s2 = num_peripherals central_connected
    ∧ handle_to_central s2 = handle_to_central central_connected.
Proof.
  apply (@sensor_link_up_down_roundtrip sample_sdk).
  - reflexivity.
  - vm_compute. intros Hin. repeat (apply elem_of_cons in Hin as [Hin|Hin]; [discriminate|]).
    inversion Hin.
  - vm_compute. apply elem_of_cons. right. apply elem_of_cons. left. reflexivity.
  - vm_compute. split; [discriminate | reflexivity].
Defined.

Lemma central_link_up_down_cycle_witness :
  let evs := [connection_up 0x41 link_to_sensor smpinfo_zero] in
  ∃ s, @run sample_sdk evs (hello_client_create ∅) = Some s
    ∧ ∃ s1 s2,
        @step sample_sdk (connection_up 0x40 link_to_central smpinfo_zero) s = Some s1
        ∧ @step sample_sdk (connection_down 0x40) s1 = Some s2
        ∧ Some 0x40 ∈ con_mux s1
        ∧ handle_to_central s1 = 0x40 mod 2 ^ 8
        ∧ num_peripherals s1 = num_peripherals s
        ∧ con_mux s2 = con_mux s
        ∧ handle_to_central s2 = 0
        ∧ num_peripherals s2 = UINT8 (num_peripherals s - 1).
Proof.
  intros evs. eexists. split; [vm_compute; reflexivity|].
  apply (@central_link_up_down_cycle sample_sdk ∅ evs).
  - vm_compute. reflexivity.
  - reflexivity.
  - intros Hin. repeat (apply elem_of_cons in Hin as [Hin|Hin]; [discriminate|]).
    inversion Hin.
  - apply elem_of_cons. right. apply elem_of_cons. left. reflexivity.
Defined.

Section Reach2.
Context `{Sdk}.

(** In a state whose configuration flags are those set at start-up, no
    handler asks for the bond records to be erased. *)
Lemma step_keeps_bonds (e : event) (s s' : state) :
  app_config s = Z.lor CONNECT_HELLO_SENSOR SMP_PAIRING →
  Forall (λ c, c.2 ≠ lesmpkeys_removeAllBondInfo) (out s) →
  step e s = Some s' →
  Forall (λ c, c.2 ≠ lesmpkeys_removeAllBondInfo) (out s').
Proof.
  intros Hcfg Hout.
  assert (∀ c l, c ≠ lesmpkeys_removeAllBondInfo →
                 Forall (λ c, c.2 ≠ lesmpkeys_removeAllBondInfo) l →
                 ∀ k, Forall (λ c : Z * rom_call, c.2 ≠ lesmpkeys_removeAllBondInfo) (l ++ [(k, c)]))
    as Hsnoc.
  { intros c l Hc Hl k. apply Forall_app. split; [exact Hl|].
    apply Forall_singleton. exact Hc. }
  destruct e; cbn [step]; intros Hs; try injection Hs as <-.
  - unfold hello_client_connection_up. handler_cases;
      repeat (apply Hsnoc; [discriminate|]); exact Hout.
  - unfold hello_client_connection_down. cbv zeta. state_simpl. rewrite Hcfg.
    change (negb (Z.land (Z.lor CONNECT_HELLO_SENSOR SMP_PAIRING) SMP_ERASE_KEY =? 0))
      with false. cbv iota.
    handler_cases; repeat (apply Hsnoc; [discriminate|]); exact Hout.
  - unfold hello_client_app_timer. handler_cases;
      repeat (apply Hsnoc; [discriminate|]); exact Hout.
  - exact Hout.
  - unfold hello_client_smp_pair_result. handler_cases;
      repeat (apply Hsnoc; [discriminate|]); exact Hout.
  - unfold hello_client_encryption_changed. state_simpl.
    repeat (apply Hsnoc; [discriminate|]); exact Hout.
  - unfold hello_client_timer_callback. handler_cases;
      repeat (apply Hsnoc; [discriminate|]); exact Hout.
  - unfold hello_client_advertisement_report in Hs. cbv zeta in Hs.
    destruct (_ <? _).
    { injection Hs as <-. state_simpl. repeat (apply Hsnoc; [discriminate|]); exact Hout. }
    destruct (negb _).
    2:{ injection Hs as <-. state_simpl. repeat (apply Hsnoc; [discriminate|]); exact Hout. }
    destruct (adv_scan _ _ _ _) as [[|]|]; cbn in Hs; [| |discriminate];
      injection Hs as <-; state_simpl; repeat (apply Hsnoc; [discriminate|]); exact Hout.
  - unfold hello_client_notification_handler, hello_client_process_data_from_peripheral.
    handler_cases; repeat (apply Hsnoc; [discriminate|]); exact Hout.
  - unfold hello_client_indication_handler, hello_client_process_data_from_peripheral.
    handler_cases; repeat (apply Hsnoc; [discriminate|]); exact Hout.
  - unfold hello_client_write_handler. handler_cases; exact Hout.
  - unfold hello_client_interrupt_handler. handler_cases;
      repeat (apply Hsnoc; [discriminate|]); exact Hout.
Qed.

(** X6: SMP_ERASE_KEY is never set, so in no run does the application ask
    for the bond records to be erased. *)
Theorem bonds_never_erased
    (nv : gmap Z (list byte)) (evs : list event) (s : state) :
  run evs (hello_client_create nv) = Some s →
  Z.land (app_config s) SMP_ERASE_KEY = 0
  ∧ Forall (λ c, c.2 ≠ lesmpkeys_removeAllBondInfo) (out s).
Proof.
  intros Hrun. split.
  { rewrite (run_app_config nv evs s Hrun). reflexivity. }
  refine (proj2 (run_invariant
            (λ s, app_config s = Z.lor CONNECT_HELLO_SENSOR SMP_PAIRING
                  ∧ Forall (λ c, c.2 ≠ lesmpkeys_removeAllBondInfo) (out s))
            _ evs _ s _ Hrun)).
  - intros e s0 s1 [Hc Ho] Hs. split.
    + rewrite (step_app_config e s0 s1 Hs). exact Hc.
    + exact (step_keeps_bonds e s0 s1 Hc Ho Hs).
  - split; [reflexivity|]. cbn [hello_client_create out].
    repeat constructor; discriminate.
Qed.

End Reach2.

Lemma bonds_never_erased_witness :
  ∃ s, @run sample_sdk
         [connection_up 0x40 link_to_central smpinfo_zero; connection_down 0x40]
         (hello_client_create ∅) = Some s
       ∧ Z.land (app_config s) SMP_ERASE_KEY = 0
       ∧ Forall (λ c, c.2 ≠ lesmpkeys_removeAllBondInfo) (out s).
Proof.
  eexists. split; [vm_compute; reflexivity|].
  apply (@bonds_never_erased sample_sdk ∅
           [connection_up 0x40 link_to_central smpinfo_zero; connection_down 0x40]).
  vm_compute. reflexivity.
Defined.

Section Ticks.
Context `{Sdk}.

Lemma ticks_S (n : nat) (s : state) :
  ticks (S n) s = hello_client_app_timer BLEPROFILE_GENERIC_APP_TIMER (ticks n s).
Proof. reflexivity. Qed.

Lemma app_timer_tick (s : state) :
  let s' := hello_client_app_timer BLEPROFILE_GENERIC_APP_TIMER s in
  app_timer_count s' = UINT32 (app_timer_count s + 1)
  ∧ button_pushed_time s' = button_pushed_time s
  ∧ handle_to_central s' = handle_to_central s
  ∧ out s' = out s ++ [(con_handle s, blecen_appTimerCb BLEPROFILE_GENERIC_APP_TIMER)].
Proof.
  unfold hello_client_app_timer. rewrite Z.eqb_refl. repeat split.
Qed.

Lemma ticks_count (n : nat) (s : state) :
  0 ≤ app_timer_count s < 2 ^ 32 →
  app_timer_count (ticks n s) = UINT32 (app_timer_count s + Z.of_nat n)
  ∧ button_pushed_time (ticks n s) = button_pushed_time s
  ∧ handle_to_central (ticks n s) = handle_to_central s.
Proof.
  intros Hs. induction n as [|n (IHc & IHb & IHh)].
  - cbn [ticks Nat.iter]. rewrite Z.add_0_r. unfold UINT32.
    rewrite Z.mod_small by exact Hs. repeat split.
  - rewrite ticks_S.
    destruct (app_timer_tick (ticks n s)) as (Hc & Hb & Hh & _).
    rewrite Hc, Hb, Hh, IHc, IHb, IHh. repeat split.
    unfold UINT32. rewrite Z.add_mod_idemp_l by lia. f_equal. lia.
Qed.

(** X7: the ticks counted between a press and the release are recovered by
    the 32-bit subtraction also when the coarse tick counter wraps in
    between. *)
Theorem held_ticks_survive_wraparound (vp : Z) (n : nat) (s : state) :
  Z.land vp 1 ≠ 0 →
  0 ≤ app_timer_count s < 2 ^ 32 →
  Z.of_nat n < 2 ^ 32 →
  let sr := ticks n (hello_client_interrupt_handler vp s) in
  button_pushed_time sr = app_timer_count s
  ∧ UINT32 (app_timer_count sr - button_pushed_time sr) = Z.of_nat n.
Proof.
  intros Hp Hs Hn sr. subst sr.
  rewrite interrupt_press by exact Hp.
  destruct (ticks_count n (set_button_pushed_time (app_timer_count s) s) Hs)
    as (Hc & Hb & _).
  rewrite Hc, Hb. state_simpl. split; [reflexivity|].
  unfold UINT32. rewrite Zminus_mod_idemp_l.
  replace (app_timer_count s + Z.of_nat n - app_timer_count s) with (Z.of_nat n) by lia.
  apply Z.mod_small. lia.
Qed.

End Ticks.

Lemma held_ticks_survive_wraparound_witness :
  let sr := @ticks sample_sdk 6 (hello_client_interrupt_handler 1 near_wrap) in
  app_timer_count near_wrap = 2 ^ 32 - 2
  ∧ app_timer_count sr = 4
  ∧ button_pushed_time sr = app_timer_count near_wrap
  ∧ UINT32 (app_timer_count sr - button_pushed_time sr) = Z.of_nat 6.
Proof.
  intros sr. split; [reflexivity|]. split; [vm_compute; reflexivity|].
  apply (@held_ticks_survive_wraparound sample_sdk 1 6 near_wrap);
    [vm_compute; congruence | vm_compute; split; [discriminate | reflexivity]
    | vm_compute; reflexivity].
Defined.

(** X8: a release does not clear the stored press tick: a second release
    without a press in between is classified again, so a long press followed
    by two releases starts discovery twice. *)
Theorem release_does_not_disarm (vr : Z) (s : state) :
  Z.land vr 1 = 0 →
  button_pushed_time s ≠ 0 →
  5 < UINT32 (app_timer_count s - button_pushed_time s) →
  let s1 := hello_client_interrupt_handler vr s in
  let s2 := hello_client_interrupt_handler vr s1 in
  button_pushed_time s1 = button_pushed_time s
  ∧ out s2 = out s ++ StartDiscovery (con_handle s) ++ StartDiscovery (con_handle s).
Proof.
  intros Hr Hb Hheld s1 s2. subst s2 s1.
  rewrite (interrupt_release vr s Hr).
  destruct (Z.eqb_spec (button_pushed_time s) 0) as [?|_]; [contradiction|].
  destruct (Z.ltb_spec 5 (UINT32 (app_timer_count s - button_pushed_time s))) as [_|?]; [|lia].
  rewrite interrupt_release by exact Hr. state_simpl.
  destruct (Z.eqb_spec (button_pushed_time s) 0) as [?|_]; [contradiction|].
  destruct (Z.ltb_spec 5 (UINT32 (app_timer_count s - button_pushed_time s))) as [_|?]; [|lia].
  state_simpl. split; [reflexivity|].
  unfold StartDiscovery. rewrite <- !app_assoc. reflexivity.
Qed.

Lemma release_does_not_disarm_witness :
  let s := @ticks sample_sdk 6
             (hello_client_interrupt_handler 1 (@ticks sample_sdk 1 booted)) in
  let s1 := hello_client_interrupt_handler 0 s in
  let s2 := hello_client_interrupt_handler 0 s1 in
  button_pushed_time s1 = button_pushed_time s
  ∧ out s2 = out s ++ StartDiscovery (con_handle s) ++ StartDiscovery (con_handle s).
Proof.
  intros s.
  apply (release_does_not_disarm 0 s);
    [reflexivity | vm_compute; congruence | vm_compute; reflexivity].
Defined.

Lemma relay_indicates_truncated (payload : list byte) (s : state) :
  notify_enabled s = false → indicate_enabled s = true →
  let s' := hello_client_process_data_from_peripheral
              (Z.of_nat (length payload)) payload s in
  out s' = out s ++
    [(handle_to_central s,
      bleprofile_sendIndication HANDLE_HELLO_CLIENT_DATA_VALUE
        (take (Nat.min (length payload) 20) payload))].
Proof.
  intros Hn Hi s'. subst s'. unfold hello_client_process_data_from_peripheral.
  unfold notify_enabled in Hn. unfold indicate_enabled in Hi. rewrite Hn, Hi.
  assert (Z.to_nat (if Z.of_nat (length payload) <? 20
                    then Z.of_nat (length payload) else 20)
          = Nat.min (length payload) 20) as ->.
  { destruct (Z.ltb_spec (Z.of_nat (length payload)) 20); lia. }
  reflexivity.
Qed.

Lemma relay_drops_when_not_enabled (len : Z) (payload : list byte) (s : state) :
  notify_enabled s = false → indicate_enabled s = false →
  hello_client_process_data_from_peripheral len payload s = s.
Proof.
  intros Hn Hi. unfold hello_client_process_data_from_peripheral.
  unfold notify_enabled in Hn. unfold indicate_enabled in Hi. rewrite Hn, Hi.
  reflexivity.
Qed.

(** X9: with notifications disabled, relaying a payload sends exactly one
    indication of the data value on the central link, carrying the first
    min(len, 20) bytes, if indications are enabled, and otherwise does
    nothing at all. *)
Theorem relay_without_notification (payload : list byte) (s : state) :
  notify_enabled s = false →
  let s' := hello_client_process_data_from_peripheral
              (Z.of_nat (length payload)) payload s in
  (indicate_enabled s = true →
   out s' = out s ++
     [(handle_to_central s,
       bleprofile_sendIndication HANDLE_HELLO_CLIENT_DATA_VALUE
         (take (Nat.min (length payload) 20) payload))])
  ∧ (indicate_enabled s = false → s' = s).
Proof.
  intros Hn s'. subst s'. split; intros Hi.
  - apply relay_indicates_truncated; assumption.
  - apply relay_drops_when_not_enabled; assumption.
Qed.

Lemma relay_without_notification_witness :
  let s := (hello_client_write_handler
              HANDLE_HELLO_CLIENT_CLIENT_CONFIGURATION_DESCRIPTOR [x02; x00]
              central_connected).2 in
  let payload := replicate 25 x41 in
  notify_enabled s = false
  ∧ indicate_enabled s = true
  ∧ out (hello_client_process_data_from_peripheral
           (Z.of_nat (length payload)) payload s)
    = out s ++ [(handle_to_central s,
                 bleprofile_sendIndication HANDLE_HELLO_CLIENT_DATA_VALUE
                   (take (Nat.min (length payload) 20) payload))].
Proof.
  intros s payload. split; [reflexivity|]. split; [reflexivity|].
  exact (proj1 (relay_without_notification payload s eq_refl) eq_refl).
Defined.

(** X10: for every indication received, on whatever link and in whatever
    state, the handler issues exactly one handle-value confirmation, as the
    last call after at most one forwarded notification or indication; it is
    issued on the link the indication came from when nothing is forwarded,
    and on the connection [handle_to_central] selected by the relay when the
    payload is forwarded. *)
Theorem indication_confirmed_once `{Sdk}
    (h attr : Z) (payload : list byte) (s : state) :
  ∃ s' forwarded,
    step (indication_received h attr payload) s = Some s'
    ∧ out s' = out s ++ forwarded
        ++ [(if notify_enabled s || indicate_enabled s
             then handle_to_central s else h,
             bleprofile_sendHandleValueConf)]
    ∧ (length forwarded ≤ 1)%nat
    ∧ (∀ c, c ∈ forwarded → c.2 ≠ bleprofile_sendHandleValueConf)
    ∧ (notify_enabled s || indicate_enabled s = false → forwarded = []).
Proof.
  exists (hello_client_indication_handler (Z.of_nat (length payload)) attr payload
            (set_con_handle h s)).
  cbn [step].
  unfold hello_client_indication_handler, hello_client_process_data_from_peripheral,
    notify_enabled, indicate_enabled. state_simpl.
  destruct (negb (Z.land (characteristic_client_configuration (hostinfo s))
                    CCC_NOTIFICATION =? 0)).
  - eexists [_]. state_simpl. rewrite <- app_assoc.
    split; [reflexivity|]. split; [reflexivity|]. split; [cbn; lia|].
    split; [|discriminate].
    intros c Hc%list_elem_of_singleton. subst c. discriminate.
  - destruct (negb (Z.land (characteristic_client_configuration (hostinfo s))
                      CCC_INDICATION =? 0)).
    + eexists [_]. state_simpl. rewrite <- app_assoc.
      split; [reflexivity|]. split; [reflexivity|]. split; [cbn; lia|].
      split; [|discriminate].
      intros c Hc%list_elem_of_singleton. subst c. discriminate.
    + exists []. state_simpl.
      split; [reflexivity|]. split; [reflexivity|]. split; [cbn; lia|].
      split; [|reflexivity].
      intros c Hc. inversion Hc.
Qed.


(** The write handler either leaves the state alone or is the two-byte write
    of the client configuration. *)
Lemma write_handler_cases (attr : Z) (payload : list byte) (s : state) :
  (∃ b0 b1, attr = HANDLE_HELLO_CLIENT_CLIENT_CONFIGURATION_DESCRIPTOR
            ∧ payload = [b0; b1]
            ∧ hello_client_write_handler attr payload s
              = (0, bleprofile_WriteNVRAM NVRAM_ID_HOST_LIST
                      (bdaddr (hostinfo s) ++ [b0; b1])
                      (set_hostinfo
                         {| bdaddr := bdaddr (hostinfo s);
                            characteristic_client_configuration :=
                              byte_to_Z b0 + Z.shiftl (byte_to_Z b1) 8 |} s)))
  ∨ ((attr ≠ HANDLE_HELLO_CLIENT_CLIENT_CONFIGURATION_DESCRIPTOR
      ∨ length payload ≠ 2%nat)
     ∧ hello_client_write_handler attr payload s
       = (if attr =? HANDLE_HELLO_CLIENT_DATA_VALUE then 0 else 0x80, s)).
Proof.
  destruct (decide (attr = HANDLE_HELLO_CLIENT_CLIENT_CONFIGURATION_DESCRIPTOR
                    ∧ length payload = 2%nat)) as [[-> Hl]|Hn].
  - left. destruct payload as [|b0 [|b1 [|]]]; try discriminate Hl.
    exists b0, b1. split; [reflexivity|]. split; [reflexivity|].
    apply write_handler_config.
  - right. apply not_and_l in Hn. split; [exact Hn|].
    unfold hello_client_write_handler.
    assert ((Z.of_nat (length payload) =? 2)
            && (attr =? HANDLE_HELLO_CLIENT_CLIENT_CONFIGURATION_DESCRIPTOR) = false) as ->.
    { apply andb_false_iff. destruct Hn as [Hn|Hn].
      - right. apply Z.eqb_neq. exact Hn.
      - left. apply Z.eqb_neq. lia. }
    destruct (attr =? HANDLE_HELLO_CLIENT_DATA_VALUE); reflexivity.
Qed.

(** X11: the write handler returns 0 or 0x80, and 0 exactly for a two-byte
    write to the client-configuration descriptor and for any write to the
    data value; a write to the data value, of whatever length, changes
    nothing. *)
Theorem write_handler_return_code (attr : Z) (payload : list byte) (s : state) :
  let r := hello_client_write_handler attr payload s in
  (r.1 = 0 ∨ r.1 = 0x80)
  ∧ (r.1 = 0 ↔
     (attr = HANDLE_HELLO_CLIENT_CLIENT_CONFIGURATION_DESCRIPTOR
      ∧ length payload = 2%nat)
     ∨ attr = HANDLE_HELLO_CLIENT_DATA_VALUE)
  ∧ (attr = HANDLE_HELLO_CLIENT_DATA_VALUE → r = (0, s)).
Proof.
  intros r. subst r.
  destruct (write_handler_cases attr payload s)
    as [(b0 & b1 & -> & -> & ->)|[Hn ->]]; cbn [fst].
  - split; [left; reflexivity|]. split; [|discriminate].
    split; [intros _; left; split; reflexivity | reflexivity].
  - destruct (Z.eqb_spec attr HANDLE_HELLO_CLIENT_DATA_VALUE) as [E|E].
    + split; [left; reflexivity|]. split; [|reflexivity].
      split; [intros _; right; exact E | reflexivity].
    + split; [right; reflexivity|]. split; [|contradiction].
      split; [discriminate|]. intros [[Ea El]|Ed]; [|contradiction].
      destruct Hn; contradiction.
Qed.

(** X12: of two successive writes of the client configuration the second
    wins: the state, NVRAM included, is the one the second write alone would
    have produced. *)
Theorem client_configuration_last_write_wins (a0 a1 b0 b1 : byte) (s : state) :
  (hello_client_write_handler
     HANDLE_HELLO_CLIENT_CLIENT_CONFIGURATION_DESCRIPTOR [b0; b1]
     (hello_client_write_handler
        HANDLE_HELLO_CLIENT_CLIENT_CONFIGURATION_DESCRIPTOR [a0; a1] s).2)
  = hello_client_write_handler
      HANDLE_HELLO_CLIENT_CLIENT_CONFIGURATION_DESCRIPTOR [b0; b1] s.
Proof.
  rewrite !write_handler_config. cbn [snd]. f_equal.
  unfold bleprofile_WriteNVRAM. state_simpl. cbn [bdaddr].
  unfold set_nvram, set_hostinfo. state_simpl.
  rewrite insert_insert_eq. reflexivity.
Qed.

Section Pref.
Context `{Sdk}.

Lemma step_keeps_preference (e : event) (s s' : state) :
  is_write_received e = false →
  step e s = Some s' →
  hostinfo s' = hostinfo s ∧ nvram s' = nvram s.
Proof.
  intros Hw. destruct e; try discriminate Hw; cbn [step]; intros Hs;
    try injection Hs as <-.
  - unfold hello_client_connection_up. handler_cases; split; reflexivity.
  - unfold hello_client_connection_down. handler_cases; split; reflexivity.
  - unfold hello_client_app_timer. handler_cases; split; reflexivity.
  - split; reflexivity.
  - unfold hello_client_smp_pair_result. handler_cases; split; reflexivity.
  - split; reflexivity.
  - unfold hello_client_timer_callback. handler_cases; split; reflexivity.
  - unfold hello_client_advertisement_report in Hs. cbv zeta in Hs.
    destruct (_ <? _); [injection Hs as <-; split; reflexivity|].
    destruct (negb _); [|injection Hs as <-; split; reflexivity].
    destruct (adv_scan _ _ _ _) as [[|]|]; cbn in Hs; [| |discriminate];
      injection Hs as <-; split; reflexivity.
  - unfold hello_client_notification_handler, hello_client_process_data_from_peripheral.
    handler_cases; split; reflexivity.
  - unfold hello_client_indication_handler, hello_client_process_data_from_peripheral.
    handler_cases; split; reflexivity.
  - unfold hello_client_interrupt_handler. handler_cases; split; reflexivity.
Qed.

(** X13: the stored preference is not loaded at start-up: whatever the
    NVRAM holds, as long as no write has been received notifications and
    indications are disabled, the NVRAM is untouched and relaying a payload
    does nothing. *)
Theorem preference_disabled_until_written
    (nv : gmap Z (list byte)) (evs : list event) (s : state) :
  Forall (λ e, is_write_received e = false) evs →
  run evs (hello_client_create nv) = Some s →
  notify_enabled s = false ∧ indicate_enabled s = false
  ∧ nvram s = nv
  ∧ ∀ len payload, hello_client_process_data_from_peripheral len payload s = s.
Proof.
  intros Hall Hrun.
  assert (hostinfo s = hostinfo (hello_client_create nv)
          ∧ nvram s = nvram (hello_client_create nv)) as [Hh Hv].
  { revert Hall Hrun. generalize (hello_client_create nv).
    induction evs as [|e evs IH]; intros s0 Hall Hrun.
    - injection Hrun as <-. split; reflexivity.
    - apply Forall_cons in Hall as [He Hall]. cbn [run] in Hrun.
      destruct (step e s0) as [s1|] eqn:E; [|discriminate]. cbn in Hrun.
      destruct (step_keeps_preference e s0 s1 He E) as [E1 E2].
      destruct (IH s1 Hall Hrun) as [E3 E4]. split; congruence. }
  assert (notify_enabled s = false) as Hn by (unfold notify_enabled; rewrite Hh; reflexivity).
  assert (indicate_enabled s = false) as Hi by (unfold indicate_enabled; rewrite Hh; reflexivity).
  split; [exact Hn|]. split; [exact Hi|]. split; [exact Hv|].
  intros len payload. apply relay_drops_when_not_enabled; assumption.
Qed.

(** X14: in every reachable state the address of the host record is still
    the zero address, no NVRAM id other than NVRAM_ID_HOST_LIST has been
    written, and either the configuration is still 0 and the NVRAM untouched
    or the record in NVRAM is the current in-memory host record. *)
Theorem persisted_record_tracks_preference
    (nv : gmap Z (list byte)) (evs : list event) (s : state) :
  run evs (hello_client_create nv) = Some s →
  bdaddr (hostinfo s) = replicate 6 x00
  ∧ (∀ id, id ≠ NVRAM_ID_HOST_LIST →
           bleprofile_ReadNVRAM id s = nv !! id)
  ∧ ((characteristic_client_configuration (hostinfo s) = 0 ∧ nvram s = nv)
     ∨ bleprofile_ReadNVRAM NVRAM_ID_HOST_LIST s = Some (HOSTINFO_bytes (hostinfo s))).
Proof.
  intros Hrun.
  refine (run_invariant
            (λ s, bdaddr (hostinfo s) = replicate 6 x00
                  ∧ (∀ id, id ≠ NVRAM_ID_HOST_LIST → bleprofile_ReadNVRAM id s = nv !! id)
                  ∧ ((characteristic_client_configuration (hostinfo s) = 0 ∧ nvram s = nv)
                     ∨ bleprofile_ReadNVRAM NVRAM_ID_HOST_LIST s
                       = Some (HOSTINFO_bytes (hostinfo s))))
            _ evs _ s _ Hrun).
  - intros e s0 s1 (Hb & Ho & Hr) Hs.
    destruct (is_write_received e) eqn:Hw.
    + destruct e; try discriminate Hw. cbn [step] in Hs. injection Hs as <-.
      destruct (write_handler_cases attr payload (set_con_handle h s0))
        as [(b0 & b1 & -> & -> & ->)|[Hn ->]]; cbn [snd].
      * unfold bleprofile_ReadNVRAM, bleprofile_WriteNVRAM, HOSTINFO_bytes.
        state_simpl. cbn [bdaddr characteristic_client_configuration].
        split; [exact Hb|]. split.
        { intros id Hid. rewrite lookup_insert_ne by congruence. exact (Ho id Hid). }
        right. rewrite lookup_insert_eq, UINT16_bytes_le16. reflexivity.
      * split; [exact Hb|]. split; [exact Ho|]. exact Hr.
    + destruct (step_keeps_preference e s0 s1 Hw Hs) as [E1 E2].
      unfold bleprofile_ReadNVRAM in *. rewrite E1, E2.
      split; [exact Hb|]. split; [exact Ho|]. exact Hr.
  - split; [reflexivity|]. split; [reflexivity|]. left. split; reflexivity.
Qed.

End Pref.

Lemma preference_disabled_until_written_witness :
  let evs := [connection_up 0x40 link_to_central smpinfo_zero;
              connection_up 0x41 link_to_sensor smpinfo_zero;
              notification_received 0x41 0x2a [x48; x69]] in
  ∃ s, @run sample_sdk evs (hello_client_create nvram_with_notify) = Some s
       ∧ notify_enabled s = false ∧ indicate_enabled s = false
       ∧ nvram s = nvram_with_notify
       ∧ ∀ len payload, hello_client_process_data_from_peripheral len payload s = s.
Proof.
  intros evs. eexists. split; [vm_compute; reflexivity|].
  apply (@preference_disabled_until_written sample_sdk nvram_with_notify evs).
  - repeat constructor.
  - vm_compute. reflexivity.
Defined.

Lemma persisted_record_tracks_preference_witness :
  let evs := [connection_up 0x40 link_to_central smpinfo_zero;
              write_received 0x40
                HANDLE_HELLO_CLIENT_CLIENT_CONFIGURATION_DESCRIPTOR [x03; x00]] in
  ∃ s, @run sample_sdk evs (hello_client_create ∅) = Some s
       ∧ bdaddr (hostinfo s) = replicate 6 x00
       ∧ (∀ id, id ≠ NVRAM_ID_HOST_LIST →
                bleprofile_ReadNVRAM id s = (∅ : gmap Z (list byte)) !! id)
       ∧ ((characteristic_client_configuration (hostinfo s) = 0 ∧ nvram s = ∅)
          ∨ bleprofile_ReadNVRAM NVRAM_ID_HOST_LIST s = Some (HOSTINFO_bytes (hostinfo s))).
Proof.
  intros evs. eexists. split; [vm_compute; reflexivity|].
  apply (@persisted_record_tracks_preference sample_sdk ∅ evs).
  vm_compute. reflexivity.
Defined.


Lemma byte_at_in_buffer (buf : list byte) (p : Z) :
  0 ≤ p < Z.of_nat (length buf) →
  ∃ v, byte_at buf p = Some v ∧ 0 ≤ v < 256.
Proof.
  intros Hp. unfold byte_at.
  destruct (Z.ltb_spec p 0); [lia|].
  destruct (lookup_lt_is_Some_2 buf (Z.to_nat p)) as [b Hb]; [lia|].
  rewrite Hb. exists (byte_to_Z b). split; [reflexivity | apply byte_to_Z_range].
Qed.

Lemma memcmp16_in_buffer (buf ref : list byte) (p : Z) :
  0 ≤ p → p + 16 ≤ Z.of_nat (length buf) →
  is_Some (memcmp16_eq buf p ref).
Proof.
  intros Hp Hl. unfold memcmp16_eq.
  rewrite bool_decide_eq_true_2; [eexists; reflexivity|].
  rewrite length_take, length_drop. lia.
Qed.

Section Termination.
Context `{Sdk}.

Lemma adv_scan_in_buffer (buf : list byte) (dataLen : Z) :
  ∀ (fuel : nat) (ptr : Z),
    0 ≤ ptr → ptr + 18 ≤ Z.of_nat (length buf) →
    Z.max 1 dataLen + 17 ≤ Z.of_nat (length buf) →
    (1 ≤ fuel)%nat → dataLen - ptr < Z.of_nat fuel →
    is_Some (adv_scan fuel buf dataLen ptr).
Proof.
  induction fuel as [|fuel IH]; intros ptr Hp Hbuf Hmax Hf1 Hf; [lia|].
  cbn [adv_scan].
  destruct (byte_at_in_buffer buf ptr) as (len & -> & Hlen); [lia|].
  cbn [mbind option_bind].
  assert (is_Some (if len =? 16 + 1 then
                     val ← byte_at buf (ptr + 1);
                     if val =? ADV_SERVICE_UUID128_COMP
                     then memcmp16_eq buf (ptr + 2) hello_service
                     else Some false
                   else Some false)) as [hit ->].
  { destruct (len =? 16 + 1); [|eexists; reflexivity].
    destruct (byte_at_in_buffer buf (ptr + 1)) as (val & -> & _); [lia|].
    cbn [mbind option_bind].
    destruct (val =? ADV_SERVICE_UUID128_COMP); [|eexists; reflexivity].
    apply memcmp16_in_buffer; lia. }
  cbn [mbind option_bind].
  destruct hit; [eexists; reflexivity|].
  destruct (Z.leb_spec dataLen (ptr + (len + 1))) as [_|Hmore]; [eexists; reflexivity|].
  apply IH; lia.
Qed.

(** X15: the handler returns on every report, well-formed or not (zero
    length fields, lengths that overshoot the data), whenever the buffer
    holds at least max(1, dataLen) + 17 bytes, so that every read of the loop
    is inside it. *)
Theorem advertisement_report_returns
    (evt : HCIULP_ADV_PACKET_REPORT_WDATA) (s : state) :
  Z.max 1 (UINT8 (dataLen evt)) + 17 ≤ Z.of_nat (length (data evt)) →
  is_Some (step (advertisement_report evt) s).
Proof.
  intros Hbuf. cbn [step]. unfold hello_client_advertisement_report. cbv zeta.
  destruct (_ <? _); [eexists; reflexivity|].
  destruct (negb _); [|eexists; reflexivity].
  assert (0 ≤ UINT8 (dataLen evt)) as Hd by (unfold UINT8; apply Z.mod_pos_bound; lia).
  destruct (adv_scan_in_buffer (data evt) (UINT8 (dataLen evt))
              (S (Z.to_nat (UINT8 (dataLen evt)))) 0) as [found ->]; try lia.
  cbn [mbind option_bind]. eexists; reflexivity.
Qed.

(** X16: the first field of the buffer is examined before the declared
    length is looked at: a buffer that starts with the Hello service field
    triggers the connect whatever the declared length, 0 included. *)
Theorem first_field_examined_whatever_the_length
    (nv : gmap Z (list byte)) (evs : list event) (s : state)
    (evt : HCIULP_ADV_PACKET_REPORT_WDATA) (rest : list byte) :
  length hello_service = 16%nat →
  0 ≤ ADV_SERVICE_UUID128_COMP < 256 →
  run evs (hello_client_create nv) = Some s →
  data evt = adv_field_bytes target_field ++ rest →
  UINT8 (dataLen evt) ≤ HCIULP_MAX_DATA_LENGTH →
  ∃ s', step (advertisement_report evt) s = Some s'
        ∧ out s' = out s
            ++ [(con_handle s, wdog_restart); (con_handle s, blecen_leAdvReportCb)]
            ++ connect_calls evt (con_handle s).
Proof.
  intros Hsize Hcomp Hrun Hdata Hmax.
  pose proof (run_app_config nv evs s Hrun) as Hcfg.
  cbn [step]. unfold hello_client_advertisement_report. cbv zeta.
  destruct (Z.ltb_spec HCIULP_MAX_DATA_LENGTH (UINT8 (dataLen evt))) as [?|_]; [lia|].
  state_simpl. rewrite Hcfg.
  change (negb (Z.land (Z.lor CONNECT_HELLO_SENSOR SMP_PAIRING) CONNECT_HELLO_SENSOR =? 0))
    with true. cbv iota.
  rewrite Hdata.
  assert (length target_field = 17%nat) as Ht
    by (unfold target_field; cbn [length]; rewrite Hsize; reflexivity).
  destruct (field_test Hsize Hcomp [] rest target_field) as [Hlen Htest]; [lia|].
  cbn [app length] in Hlen, Htest. change (Z.of_nat 0) with 0 in Hlen, Htest.
  cbn [adv_scan]. rewrite Hlen. cbn [mbind option_bind].
  rewrite Htest. cbn [mbind option_bind].
  rewrite bool_decide_eq_true_2 by reflexivity. cbn [mbind option_bind].
  eexists. split; [reflexivity|]. state_simpl.
  unfold connect_calls. rewrite <- !app_assoc. reflexivity.
Qed.

End Termination.

Lemma advertisement_report_returns_witness :
  is_Some (@step sample_sdk
             (advertisement_report
                {| dataLen := 3; data := replicate 20 x00;
                   wd_addr := []; addressType := 0; rssi := 0 |})
             booted).
Proof.
  apply (@advertisement_report_returns sample_sdk). vm_compute. discriminate.
Defined.

Lemma first_field_examined_whatever_the_length_witness :
  let evt := @stale_report sample_sdk [] in
  dataLen evt = 0
  ∧ ∃ s', @step sample_sdk (advertisement_report evt) booted = Some s'
          ∧ out s' = out booted
              ++ [(con_handle booted, wdog_restart);
                  (con_handle booted, blecen_leAdvReportCb)]
              ++ connect_calls evt (con_handle booted).
Proof.
  intros evt. split; [reflexivity|].
  refine (@first_field_examined_whatever_the_length sample_sdk ∅ [] booted evt []
            _ _ _ _ _);
    [reflexivity | vm_compute; split; congruence | reflexivity | reflexivity
    | vm_compute; congruence].
Defined.
